(** * Slammer: the class-feedback application (app.py)

    A shallow embedding of the authentication flow and of the feedback
    upsert of [app.py].  The relational store is a pair of tables (lists of
    rows, in the order of the store); the Flask session is a record of the
    two keys the routes use; every route is a function from the world
    before the request to the world after it and the response.

    Strings are sequences of code points below 256.  Timestamps are integers
    (the reading of [datetime.utcnow] at the moment a row is inserted). *)

From Stdlib Require Import ZArith List String Ascii Bool Lia Sorted Permutation.
Import ListNotations.
Open Scope string_scope.
Open Scope Z_scope.

(** ** Python built-ins used by the routes *)

Module Py.

(** [str.isspace] on one code point below 256: TAB..CR, FS..US, space,
    NEL and the no-break space. *)
Definition is_space (c : ascii) : bool :=
  let n := Z.of_nat (nat_of_ascii c) in
  ((9 <=? n) && (n <=? 13)) || ((28 <=? n) && (n <=? 32))
  || (n =? 133) || (n =? 160).

Fixpoint lstrip_chars (l : list ascii) : list ascii :=
  match l with
  | [] => []
  | c :: l' => if is_space c then lstrip_chars l' else l
  end.

Definition strip_chars (l : list ascii) : list ascii :=
  rev (lstrip_chars (rev (lstrip_chars l))).

(** [s.strip()] *)
Definition strip (s : string) : string :=
  string_of_list_ascii (strip_chars (list_ascii_of_string s)).

(** [str.lower] on one code point below 256: A..Z and the accented
    capitals 192..222 (the multiplication sign 215 apart) move up by 32. *)
Definition lower_char (c : ascii) : ascii :=
  let n := Z.of_nat (nat_of_ascii c) in
  if ((65 <=? n) && (n <=? 90))
     || ((192 <=? n) && (n <=? 222) && negb (n =? 215))
  then ascii_of_nat (nat_of_ascii c + 32)
  else c.

(** [s.lower()] *)
Fixpoint lower (s : string) : string :=
  match s with
  | EmptyString => EmptyString
  | String c s' => String (lower_char c) (lower s')
  end.

(** Truth value of a string: [bool(s)], [not s] is its negation. *)
Definition truthy (s : string) : bool := negb (String.eqb s "").

(** Truth value of [None] or a string. *)
Definition truthy_opt (o : option string) : bool :=
  match o with
  | None => false
  | Some s => truthy s
  end.

Inductive exn : Type :=
| TypeError
| ValueError
| IntegrityError
| DataError.

(** The string holds the character NUL.  The database driver refuses such
    a string as a parameter of a statement, with [ValueError]. *)
Fixpoint has_nul (s : string) : bool :=
  match s with
  | EmptyString => false
  | String c s' => (Z.of_nat (nat_of_ascii c) =? 0) || has_nul s'
  end.

(** The values of a 32-bit [Integer] column. *)
Definition in_int32 (n : Z) : bool :=
  (-2147483648 <=? n) && (n <=? 2147483647).

(** The white space [int] skips around a literal: as [str.isspace], the
    separators FS..US apart. *)
Definition is_int_space (c : ascii) : bool :=
  let n := Z.of_nat (nat_of_ascii c) in
  ((9 <=? n) && (n <=? 13)) || (n =? 32) || (n =? 133) || (n =? 160).

Fixpoint lstrip_int_chars (l : list ascii) : list ascii :=
  match l with
  | [] => []
  | c :: l' => if is_int_space c then lstrip_int_chars l' else l
  end.

Definition strip_int_chars (l : list ascii) : list ascii :=
  rev (lstrip_int_chars (rev (lstrip_int_chars l))).

(** The number of decimal digits of a literal, underscores not counted. *)
Fixpoint count_digits (l : list ascii) : nat :=
  match l with
  | [] => O
  | c :: l' =>
      let n := Z.of_nat (nat_of_ascii c) in
      if (48 <=? n) && (n <=? 57) then S (count_digits l') else count_digits l'
  end.

(** [sys.get_int_max_str_digits()], at its default. *)
Definition int_max_str_digits : nat := 4300.

Definition digit_of (c : ascii) : option Z :=
  let n := Z.of_nat (nat_of_ascii c) in
  if (48 <=? n) && (n <=? 57) then Some (n - 48) else None.

(** The digits of an integer literal: decimal digits, with single
    underscores allowed between two digits.  [prev] tells whether the
    previous character was a digit. *)
Fixpoint parse_digits (prev : bool) (acc : Z) (l : list ascii) : option Z :=
  match l with
  | [] => if prev then Some acc else None
  | c :: l' =>
      match digit_of c with
      | Some d => parse_digits true (10 * acc + d) l'
      | None =>
          if Ascii.eqb c "_"%char && prev
          then parse_digits false acc l'
          else None
      end
  end.

(** [int(x)] for [x] a string or [None]: [None] raises [TypeError]; a
    string that is not a decimal literal, or has more digits than the limit
    of the interpreter, raises [ValueError]. *)
Definition int (x : option string) : Z + exn :=
  match x with
  | None => inr TypeError
  | Some s =>
      let body (sign : Z) (l : list ascii) :=
        match parse_digits false 0 l with
        | Some n =>
            if Nat.leb (count_digits l) int_max_str_digits
            then inl (sign * n)
            else inr ValueError
        | None => inr ValueError
        end in
      match strip_int_chars (list_ascii_of_string s) with
      | "+"%char :: l => body 1 l
      | "-"%char :: l => body (-1) l
      | l => body 1 l
      end
  end.

End Py.

(** ** Models (the two tables) *)

Module User.

Record t : Type := mk {
  id : Z;
  name : string;
  email : string;
  password_hash : option string;
  created_at : Z
}.

Definition with_password_hash (u : t) (h : option string) : t :=
  mk (id u) (name u) (email u) h (created_at u).

Section Methods.
(** werkzeug.security: the hash of a password under a salt drawn at the
    call, and the check of a candidate against a stored hash. *)
Variable generate_password_hash : string -> string -> string.
Variable check_password_hash : string -> string -> bool.

Definition set_password (u : t) (salt raw : string) : t :=
  with_password_hash u (Some (generate_password_hash salt raw)).

Definition check_password (u : t) (raw : string) : bool :=
  match password_hash u with
  | None => false
  | Some h => if negb (Py.truthy h) then false
              else check_password_hash h raw
  end.
End Methods.

End User.

Module Feedback.

Record t : Type := mk {
  id : Z;
  sender_id : Z;
  recipient_id : Z;
  content : string;
  visible : bool;
  created_at : Z
}.

Definition with_content_visible (f : t) (c : string) (v : bool) : t :=
  mk (id f) (sender_id f) (recipient_id f) c v (created_at f).

End Feedback.

(** ** The store, the session and the requests *)

(** The relational store: the two tables, rows in the order in which the
    store answers a query without order, and the sequence that numbers
    feedback rows. *)
Record DB : Type := mkDB {
  users : list User.t;
  feedbacks : list Feedback.t;
  feedback_seq : Z
}.

(** The Flask session: the keys ['user_id'] and ['pre_user_id']. *)
Record Session : Type := mkSession {
  user_id : option Z;
  pre_user_id : option Z
}.

Record World : Type := mkWorld {
  db : DB;
  session : Session
}.

Inductive Method : Type := GET | POST.

(** [request.form]: the submitted fields, in order. *)
Definition Form : Type := list (string * string).

(** A request, with the readings of the clock and of the random source that
    are taken while it is served. *)
Record Request : Type := mkRequest {
  method : Method;
  form : Form;
  now : Z;
  salt : string
}.

(** What a route answers: a redirect to an endpoint (with the message it
    flashed, if any, and its category), a rendered template, or an exception
    that leaves the route. *)
Inductive Response : Type :=
| Redirect (endpoint : string) (flashed : option (string * string))
| Render (template : string) (user : option User.t)
| RenderFeedback (user : User.t) (given received : list Feedback.t)
| Raise (e : Py.exn).

(** [request.form.get(key)] *)
Fixpoint form_get (f : Form) (key : string) : option string :=
  match f with
  | [] => None
  | (k, v) :: f' => if String.eqb k key then Some v else form_get f' key
  end.

(** [request.form.get(key, default)] *)
Definition form_get_default (f : Form) (key default : string) : string :=
  match form_get f key with
  | Some v => v
  | None => default
  end.

Definition option_string_eqb (a b : option string) : bool :=
  match a, b with
  | Some x, Some y => String.eqb x y
  | None, None => true
  | _, _ => false
  end.

(** ** Queries *)

(** [User.query.get(uid)] *)
Definition User_query_get (d : DB) (uid : Z) : option User.t :=
  find (fun u => User.id u =? uid) (users d).

(** [User.query.filter_by(email=e).first()], for an email the driver
    accepts (no NUL); the routes check that before they ask. *)
Definition User_query_by_email (d : DB) (e : string) : option User.t :=
  find (fun u => String.eqb (User.email u) e) (users d).

Definition same_pair (s r : Z) (f : Feedback.t) : bool :=
  (Feedback.sender_id f =? s) && (Feedback.recipient_id f =? r).

(** [Feedback.query.filter_by(sender_id=s, recipient_id=r).first()]: the
    query has no order, the store answers with the first row of the pair in
    the order of the table. *)
Definition Feedback_query_by_pair (d : DB) (s r : Z) : option Feedback.t :=
  find (same_pair s r) (feedbacks d).

Definition has_user (d : DB) (uid : Z) : bool :=
  existsb (fun u => User.id u =? uid) (users d).

(** Insertion of a row by descending creation time; a row goes before the
    rows that are not newer than it. *)
Fixpoint insert_desc (f : Feedback.t) (l : list Feedback.t) : list Feedback.t :=
  match l with
  | [] => [f]
  | g :: l' =>
      if Feedback.created_at g <=? Feedback.created_at f
      then f :: l
      else g :: insert_desc f l'
  end.

(** [.order_by(Feedback.created_at.desc()).all()] *)
Fixpoint order_by_created_at_desc (l : list Feedback.t) : list Feedback.t :=
  match l with
  | [] => []
  | f :: l' => insert_desc f (order_by_created_at_desc l')
  end.

(** ** Writes *)

(** The table after the rows that pass [hit] were rewritten by [g]: the
    store puts the new version of a row behind the rows it leaves alone. *)
Definition move_rewritten (hit : Feedback.t -> bool)
    (g : Feedback.t -> Feedback.t) (l : list Feedback.t) : list Feedback.t :=
  filter (fun f => negb (hit f)) l ++ map g (filter hit l).

(** Commit after [content] and [visible] of the row [existing] were
    assigned.  When both are what the row holds, nothing is written.
    Otherwise the row of that primary key is rewritten, its other columns
    kept; the store puts the new version of the row behind the other rows
    of the table.  Content with a NUL is refused by the driver: the commit
    raises [ValueError] and nothing is written. *)
Definition update_feedback (d : DB) (existing : Feedback.t)
    (c : string) (v : bool) : DB * option Py.exn :=
  if String.eqb (Feedback.content existing) c
     && Bool.eqb (Feedback.visible existing) v
  then (d, None)
  else if Py.has_nul c
  then (d, Some Py.ValueError)
  else
    (mkDB (users d)
          (move_rewritten (fun f => Feedback.id f =? Feedback.id existing)
                          (fun f => Feedback.with_content_visible f c v)
                          (feedbacks d))
          (feedback_seq d),
     None).

(** Commit of a new feedback row.  Content with a NUL is refused by the
    driver ([ValueError]) and a sender or recipient outside the 32-bit
    column by the store ([DataError]); nothing is written and the sequence
    is not touched.  Otherwise the row takes the next number of the
    sequence and the clock's reading as its creation time.  Both
    references are declared [ForeignKey('user.id')]: the store refuses a
    row whose sender or recipient is not a user, and the commit raises
    [IntegrityError]; the sequence number is spent all the same. *)
Definition insert_feedback (d : DB) (t : Z) (s r : Z)
    (c : string) (v : bool) : DB * option Py.exn :=
  if Py.has_nul c
  then (d, Some Py.ValueError)
  else if negb (Py.in_int32 s && Py.in_int32 r)
  then (d, Some Py.DataError)
  else
    let fid := feedback_seq d + 1 in
    if has_user d s && has_user d r
    then (mkDB (users d)
               (feedbacks d ++ [Feedback.mk fid s r c v t])
               fid,
          None)
    else (mkDB (users d) (feedbacks d) fid, Some Py.IntegrityError).

(** Commit of a changed user row. *)
Definition update_user (d : DB) (u' : User.t) : DB :=
  mkDB (map (fun u => if User.id u =? User.id u' then u' else u) (users d))
       (feedbacks d)
       (feedback_seq d).

(** ** Helpers *)

Definition current_user (w : World) : option User.t :=
  match user_id (session w) with
  | None => None
  | Some uid => if uid =? 0 then None else User_query_get (db w) uid
  end.

Definition flash_redirect (message category endpoint : string) : Response :=
  Redirect endpoint (Some (message, category)).


(** The failures of the specification, as the routes surface them. *)
Definition UnknownEmail : Response :=
  flash_redirect
    "Email not recognized. Please use an email from the class list."
    "danger" "login".

Definition PasswordMismatch : Response :=
  flash_redirect "Passwords empty or don't match." "danger" "set_password".

Definition InvalidCredential : Response :=
  flash_redirect "Incorrect password." "danger" "login".

Definition EmptyContent : Response :=
  flash_redirect "Feedback cannot be empty." "danger" "give_feedback".

Definition NotAuthenticated : Response := Redirect "login" None.

(** ** Routes *)

Section Routes.

(** werkzeug.security, as in [User]. *)
Variable generate_password_hash : string -> string -> string.
Variable check_password_hash : string -> string -> bool.

(** [/login].  An email with a NUL is refused by the driver when the
    query is sent: [ValueError] leaves the route. *)
Definition login (w : World) (rq : Request) : World * Response :=
  match method rq with
  | POST =>
      let email := Py.lower (Py.strip (form_get_default (form rq) "email" "")) in
      if Py.has_nul email then (w, Raise Py.ValueError)
      else
      match User_query_by_email (db w) email with
      | None => (w, UnknownEmail)
      | Some user =>
          if negb (Py.truthy_opt (User.password_hash user))
          then (mkWorld (db w)
                        (mkSession (user_id (session w)) (Some (User.id user))),
                Redirect "set_password" None)
          else
            let password := form_get_default (form rq) "password" "" in
            if User.check_password check_password_hash user password
            then (mkWorld (db w)
                          (mkSession (Some (User.id user))
                                     (pre_user_id (session w))),
                  flash_redirect ("Welcome, " ++ User.name user ++ "!")
                                 "success" "dashboard")
            else (w, InvalidCredential)
      end
  | GET => (w, Render "login.html" None)
  end.

(** [/set-password] *)
Definition set_password (w : World) (rq : Request) : World * Response :=
  let no_email :=
    (w, flash_redirect "No email selected. Start from login."
                       "warning" "login") in
  match pre_user_id (session w) with
  | None => no_email
  | Some pre_id =>
      if pre_id =? 0 then no_email
      else
        match User_query_get (db w) pre_id with
        | None => (w, flash_redirect "User not found." "danger" "login")
        | Some user =>
            match method rq with
            | POST =>
                let p1 := form_get (form rq) "password" in
                let p2 := form_get (form rq) "confirm_password" in
                match p1 with
                | None => (w, PasswordMismatch)
                | Some raw =>
                    if negb (Py.truthy raw) || negb (option_string_eqb p1 p2)
                    then (w, PasswordMismatch)
                    else
                      let user' :=
                        User.set_password generate_password_hash
                                          user (salt rq) raw in
                      (mkWorld (update_user (db w) user')
                               (mkSession (Some (User.id user)) None),
                       flash_redirect "Password set! Logged in."
                                      "success" "dashboard")
                end
            | GET => (w, Render "set_password.html" (Some user))
            end
        end
  end.

(** [/logout] *)
Definition logout (w : World) (rq : Request) : World * Response :=
  (mkWorld (db w) (mkSession None (pre_user_id (session w))),
   flash_redirect "Logged out." "info" "login").

(** [/dashboard] *)
Definition dashboard (w : World) (rq : Request) : World * Response :=
  match current_user w with
  | None => (w, NotAuthenticated)
  | Some user => (w, Render "dashboard.html" (Some user))
  end.

(** [/give-feedback].  The page's list of recipients is presentation and is
    left out of the rendered answer. *)
Definition give_feedback (w : World) (rq : Request) : World * Response :=
  match current_user w with
  | None => (w, NotAuthenticated)
  | Some user =>
      match method rq with
      | POST =>
          match Py.int (form_get (form rq) "recipient_id") with
          | inr e => (w, Raise e)
          | inl recipient_id =>
              let content := Py.strip (form_get_default (form rq) "content" "") in
              let visible := Py.truthy_opt (form_get (form rq) "visible") in
              if negb (Py.truthy content)
              then (w, EmptyContent)
              else
                match Feedback_query_by_pair (db w) (User.id user) recipient_id with
                | Some existing =>
                    match update_feedback (db w) existing content visible with
                    | (d', None) =>
                        (mkWorld d' (session w),
                         flash_redirect "Feedback updated!" "success" "give_feedback")
                    | (d', Some e) => (mkWorld d' (session w), Raise e)
                    end
                | None =>
                    match insert_feedback (db w) (now rq) (User.id user)
                                          recipient_id content visible with
                    | (d', None) =>
                        (mkWorld d' (session w),
                         flash_redirect "Feedback sent!" "success" "give_feedback")
                    | (d', Some e) => (mkWorld d' (session w), Raise e)
                    end
                end
          end
      | GET => (w, Render "give_feedback.html" (Some user))
      end
  end.

(** [/view-feedback] *)
Definition view_feedback (w : World) (rq : Request) : World * Response :=
  match current_user w with
  | None => (w, NotAuthenticated)
  | Some user =>
      let given :=
        order_by_created_at_desc
          (filter (fun f => Feedback.sender_id f =? User.id user)
                  (feedbacks (db w))) in
      let received :=
        order_by_created_at_desc
          (filter (fun f => Feedback.recipient_id f =? User.id user)
                  (feedbacks (db w))) in
      (w, RenderFeedback user given received)
  end.

(** The routes that read or write the session, the users or the feedback. *)
Inductive Route : Type :=
| RLogin | RSetPassword | RLogout | RDashboard | RGiveFeedback | RViewFeedback.

Definition serve (r : Route) (w : World) (rq : Request) : World * Response :=
  match r with
  | RLogin => login w rq
  | RSetPassword => set_password w rq
  | RLogout => logout w rq
  | RDashboard => dashboard w rq
  | RGiveFeedback => give_feedback w rq
  | RViewFeedback => view_feedback w rq
  end.

(** The world after a run of requests, served one after the other. *)
Fixpoint run (w : World) (rs : list (Route * Request)) : World :=
  match rs with
  | [] => w
  | (r, rq) :: rs' => run (fst (serve r w rq)) rs'
  end.

End Routes.

(** ** Invariants of the store *)

(** No key occurs twice in a list of keys. *)
Fixpoint distinct {K : Type} (eqb : K -> K -> bool) (l : list K) : bool :=
  match l with
  | [] => true
  | k :: l' => negb (existsb (eqb k) l') && distinct eqb l'
  end.

(** The constraints the [User] model declares and the store enforces: the
    primary key (a 32-bit integer, numbered from 1 by the store) and the
    unique email, which, as text of the store, holds no NUL. *)
Definition users_ok (d : DB) : bool :=
  distinct Z.eqb (map User.id (users d))
  && distinct String.eqb (map User.email (users d))
  && forallb (fun u => 0 <? User.id u) (users d)
  && forallb (fun u => (User.id u <=? 2147483647)
                       && negb (Py.has_nul (User.email u)))
             (users d).

(** The foreign keys of the [Feedback] model: sender and recipient of every
    row are users. *)
Definition references_ok (d : DB) : bool :=
  forallb (fun f => has_user d (Feedback.sender_id f)
                    && has_user d (Feedback.recipient_id f))
          (feedbacks d).

(** The number of feedback rows of the ordered pair (s, r). *)
Definition count_pair (s r : Z) (l : list Feedback.t) : nat :=
  List.length (filter (same_pair s r) l).

(** At most one feedback row per ordered pair (sender, recipient). *)
Fixpoint one_per_pair (l : list Feedback.t) : bool :=
  match l with
  | [] => true
  | f :: l' =>
      negb (existsb (same_pair (Feedback.sender_id f) (Feedback.recipient_id f)) l')
      && one_per_pair l'
  end.

(** Newest first. *)
Definition newer_or_same (a b : Feedback.t) : Prop :=
  Feedback.created_at b <= Feedback.created_at a.

(** A hash function without secrets, to run the routes on examples: the
    hash of a password is the password behind a marker. *)
Module PlainHash.
Definition generate (salt raw : string) : string := "plain$" ++ raw.
Definition check (h raw : string) : bool := String.eqb h ("plain$" ++ raw).
End PlainHash.

(** Example worlds. *)
Module Examples.
Definition alice : User.t := User.mk 1 "Alice" "alice@class.in" None 0.
Definition bob : User.t := User.mk 2 "Bob" "bob@class.in" None 0.
Definition fresh : World :=
  mkWorld (mkDB [alice; bob] [] 0) (mkSession None None).
Definition alice_in : World :=
  mkWorld (mkDB [alice; bob] [] 0) (mkSession (Some 1) None).
Definition alice_pending : World :=
  mkWorld (mkDB [alice; bob] [] 0) (mkSession None (Some 1)).
(** Alice has sent feedback to Bob at time 10. *)
Definition alice_sent : World :=
  mkWorld (mkDB [alice; bob] [Feedback.mk 1 1 2 "x" true 10] 1)
          (mkSession (Some 1) None).
Definition post (f : Form) (t : Z) : Request := mkRequest POST f t "salt".
Definition submit (r c : string) (v : option string) (t : Z) : Request :=
  post (("recipient_id", r) :: ("content", c)
        :: match v with Some x => [("visible", x)] | None => [] end) t.
End Examples.

(** ** Start-up configuration *)

Module Config.

(** [s.startswith(p)] *)
Fixpoint startswith (s p : string) {struct p} : bool :=
  match p with
  | EmptyString => true
  | String c p' =>
      match s with
      | EmptyString => false
      | String d s' => Ascii.eqb d c && startswith s' p'
      end
  end.

(** [s[n:]] *)
Fixpoint drop (n : nat) (s : string) : string :=
  match n, s with
  | O, _ => s
  | S n', EmptyString => EmptyString
  | S n', String _ s' => drop n' s'
  end.

(** [s.replace(old, new, 1)]: the first occurrence of [old], from the
    left, is replaced. *)
Fixpoint replace_first (s old new : string) : string :=
  if startswith s old then new ++ drop (String.length old) s
  else match s with
       | EmptyString => EmptyString
       | String c s' => String c (replace_first s' old new)
       end.

(** [os.environ.get('SECRET_KEY') or 'replace-with-a-better-secret'] *)
Definition secret_key (env : option string) : string :=
  match env with
  | Some s => if Py.truthy s then s else "replace-with-a-better-secret"
  | None => "replace-with-a-better-secret"
  end.

(** The store's URL, from the environment variable [DATABASE_URL].  [None]
    stands for the [RuntimeError] that stops the start-up. *)
Definition database_uri (env : option string) : option string :=
  match env with
  | None => None
  | Some database_url =>
      if negb (Py.truthy database_url) then None
      else if startswith database_url "postgres://"
           then Some (replace_first database_url "postgres://" "postgresql://")
           else Some database_url
  end.

End Config.

(** ** The page of [/give-feedback] *)

(** [user.given_feedbacks]: the rows the user sent; the relationship has
    no order, the store answers in the order of the table. *)
Definition given_feedbacks (d : DB) (u : User.t) : list Feedback.t :=
  filter (fun f => Feedback.sender_id f =? User.id u) (feedbacks d).

(** A Python dict with integer keys: the items in insertion order; setting
    a key that is there rewrites its value in place. *)
Definition Dict (V : Type) : Type := list (Z * V).

Fixpoint dict_set {V : Type} (d : Dict V) (k : Z) (v : V) : Dict V :=
  match d with
  | [] => [(k, v)]
  | (k', v') :: d' =>
      if k' =? k then (k', v) :: d' else (k', v') :: dict_set d' k v
  end.

Fixpoint dict_get {V : Type} (d : Dict V) (k : Z) : option V :=
  match d with
  | [] => None
  | (k', v') :: d' => if k' =? k then Some v' else dict_get d' k
  end.

(** [{f.recipient_id: f for f in fs}] *)
Definition feedback_map (fs : list Feedback.t) : Dict Feedback.t :=
  fold_left (fun d f => dict_set d (Feedback.recipient_id f) f) fs [].

Section Page.

(** The order of the store on names (its collation), as a test
    [name_le a b]: [a] sorts before [b] or with it. *)
Variable name_le : string -> string -> bool.

Fixpoint insert_by_name (u : User.t) (l : list User.t) : list User.t :=
  match l with
  | [] => [u]
  | x :: l' =>
      if name_le (User.name u) (User.name x)
      then u :: l
      else x :: insert_by_name u l'
  end.

(** [User.query.order_by(User.name).all()] *)
Fixpoint order_by_name (l : list User.t) : list User.t :=
  match l with
  | [] => []
  | u :: l' => insert_by_name u (order_by_name l')
  end.

(** [[u for u in users if u.id != user.id]] *)
Definition recipients (d : DB) (user : User.t) : list User.t :=
  filter (fun u => negb (User.id u =? User.id user))
         (order_by_name (users d)).

(** What [/give-feedback] hands to its template on a GET. *)
Record GiveFeedbackPage : Type := mkPage {
  page_user : User.t;
  page_recipients : list User.t;
  page_feedback_map : Dict Feedback.t
}.

Definition give_feedback_page (w : World) : option GiveFeedbackPage :=
  match current_user w with
  | None => None
  | Some user =>
      Some (mkPage user (recipients (db w) user)
                   (feedback_map (given_feedbacks (db w) user)))
  end.

End Page.

(** ** Maintenance *)

Inductive AdminResponse : Type :=
| AlreadyExists (id : Z) (name : string)
| Added (id : Z) (name : string)
| AdminRaise (e : Py.exn).

Definition sridevi_email : string := "sridevi-aid@saranathan.ac.in".
Definition sridevi_name : string := "A.SRIDEVI MAM (RAJAMATHA)".

(** [/add-sridevi-final].  [new_id] is the number the store gives the new
    row and [t] the clock's reading; a number that is already the primary
    key of a user makes the commit raise [IntegrityError]. *)
Definition add_sridevi_final (w : World) (new_id t : Z) : World * AdminResponse :=
  match User_query_by_email (db w) sridevi_email with
  | Some user => (w, AlreadyExists (User.id user) (User.name user))
  | None =>
      let new_user := User.mk new_id sridevi_name sridevi_email None t in
      if has_user (db w) new_id
      then (w, AdminRaise Py.IntegrityError)
      else (mkWorld (mkDB (users (db w) ++ [new_user])
                          (feedbacks (db w))
                          (feedback_seq (db w)))
                    (session w),
            Added (User.id new_user) (User.name new_user))
  end.

(** ** The PDF exports *)

(** The calls made on the reportlab canvas, in order.  [num] is the type of
    the page coordinates. *)
Inductive CanvasOp (num : Type) : Type :=
| SetFont (font : string) (size : Z)
| DrawString (x : Z) (y : num) (text : string)
| ShowPage
| Save.

Arguments SetFont {num} font size.
Arguments DrawString {num} x y text.
Arguments ShowPage {num}.
Arguments Save {num}.

(** What an export route answers: the redirect to the login page, the file
    sent as an attachment, or the [AttributeError] of a row whose recipient
    is missing. *)
Inductive PdfResponse (num : Type) : Type :=
| PdfLogin
| PdfFile (download_name : string) (ops : list (CanvasOp num))
| PdfAttributeError.

Arguments PdfLogin {num}.
Arguments PdfFile {num} download_name ops.
Arguments PdfAttributeError {num}.

Section Pdf.

(** Page coordinates are floating-point numbers; what the routes do with
    them is kept abstract: the height of an A4 page, [y - n] and [y < n]
    for an integer [n].  [strftime] renders a creation time with the format
    of the routes. *)
Variable num : Type.
Variable height : num.
Variable minus : num -> Z -> num.
Variable below : num -> Z -> bool.
Variable strftime : Z -> string.

(** One step of both loops: the line is drawn at [y]; the next position is
    20 lower, or the top of a new page when that is below 50. *)
Definition draw_line (y : num) (line : string) : list (CanvasOp num) * num :=
  let y' := minus y 20 in
  if below y' 50
  then ([DrawString 50 y line; ShowPage], minus height 50)
  else ([DrawString 50 y line], y').

Definition given_line (recipient : User.t) (f : Feedback.t) : string :=
  "To " ++ User.name recipient ++ " (" ++ strftime (Feedback.created_at f)
  ++ "): " ++ Feedback.content f.

Definition received_line (sender : option User.t) (f : Feedback.t) : string :=
  let sender_name :=
    match sender with
    | Some u => User.name u
    | None => "Unknown"
    end in
  "From " ++ sender_name ++ " (" ++ strftime (Feedback.created_at f)
  ++ "): " ++ Feedback.content f.

(** The loop of [/download-given-pdf]; [None] when [f.recipient] is [None]
    for a row. *)
Fixpoint given_loop (d : DB) (y : num) (given : list Feedback.t)
    : option (list (CanvasOp num)) :=
  match given with
  | [] => Some []
  | f :: rest =>
      match User_query_get d (Feedback.recipient_id f) with
      | None => None
      | Some recipient =>
          let (ops, y') := draw_line y (given_line recipient f) in
          match given_loop d y' rest with
          | Some ops' => Some (ops ++ ops')%list
          | None => None
          end
      end
  end.

(** The loop of [/download-received-pdf]. *)
Fixpoint received_loop (d : DB) (y : num) (received : list Feedback.t)
    : list (CanvasOp num) :=
  match received with
  | [] => []
  | f :: rest =>
      let sender := User_query_get d (Feedback.sender_id f) in
      let (ops, y') := draw_line y (received_line sender f) in
      (ops ++ received_loop d y' rest)%list
  end.

(** [/download-given-pdf] *)
Definition download_given_pdf (w : World) : PdfResponse num :=
  match current_user w with
  | None => PdfLogin
  | Some user =>
      let given :=
        order_by_created_at_desc
          (filter (fun f => Feedback.sender_id f =? User.id user)
                  (feedbacks (db w))) in
      let y := minus height 50 in
      let title := "Feedbacks Given by " ++ User.name user in
      match given_loop (db w) (minus y 40) given with
      | None => PdfAttributeError
      | Some ops =>
          PdfFile "given_feedbacks.pdf"
                  (SetFont "Helvetica-Bold" 16 :: DrawString 50 y title
                   :: SetFont "Helvetica" 12 :: (ops ++ [Save])%list)
      end
  end.

(** [/download-received-pdf] *)
Definition download_received_pdf (w : World) : PdfResponse num :=
  match current_user w with
  | None => PdfLogin
  | Some user =>
      let received :=
        order_by_created_at_desc
          (filter (fun f => Feedback.recipient_id f =? User.id user)
                  (feedbacks (db w))) in
      let y := minus height 50 in
      let title := "Feedbacks Received by " ++ User.name user in
      PdfFile "received_feedbacks.pdf"
              (SetFont "Helvetica-Bold" 16 :: DrawString 50 y title
               :: SetFont "Helvetica" 12
               :: (received_loop (db w) (minus y 40) received ++ [Save])%list)
  end.

(** The texts drawn by a run of canvas calls, and the heights they are
    drawn at. *)
Fixpoint drawn_texts (ops : list (CanvasOp num)) : list string :=
  match ops with
  | [] => []
  | DrawString _ _ text :: ops' => text :: drawn_texts ops'
  | _ :: ops' => drawn_texts ops'
  end.

Fixpoint drawn_heights (ops : list (CanvasOp num)) : list num :=
  match ops with
  | [] => []
  | DrawString _ y _ :: ops' => y :: drawn_heights ops'
  | _ :: ops' => drawn_heights ops'
  end.

End Pdf.

(** ** More invariants of the store *)

(** The primary key of the feedback table: the numbers are distinct and
    none is beyond the sequence. *)
Definition feedback_ids_ok (d : DB) : bool :=
  distinct Z.eqb (map Feedback.id (feedbacks d))
  && forallb (fun f => Feedback.id f <=? feedback_seq d) (feedbacks d).

(** The last row of a list that passes a test. *)
Definition find_last {A : Type} (p : A -> bool) (l : list A) : option A :=
  find p (rev l).

(** More example worlds. *)
Module MoreExamples.
Definition alice_set : User.t :=
  User.mk 1 "Alice" "alice@class.in" (Some (PlainHash.generate "s" "pw1")) 0.
Definition with_password : World :=
  mkWorld (mkDB [alice_set; Examples.bob] [] 0) (mkSession None None).
Definition busy : World :=
  mkWorld (mkDB [Examples.alice; Examples.bob]
                [Feedback.mk 1 1 2 "to bob" true 10;
                 Feedback.mk 2 2 1 "to alice" false 20;
                 Feedback.mk 3 1 1 "note" true 30]
                3)
          (mkSession (Some 1) None).
Definition stamp (t : Z) : string := "2026-01-01 00:00".
(** The calls of the received-feedback export for Alice in [busy], on a
    page of height 160: a page holds two lines under the title. *)
Definition busy_received_ops : list (CanvasOp Z) :=
  Eval vm_compute in
    match download_received_pdf Z 160 Z.sub Z.ltb stamp busy with
    | PdfFile _ ops => ops
    | _ => []
    end.
End MoreExamples.

(** ** Facts about lists, keys and the Python helpers *)

Lemma find_none_existsb {A : Type} (p : A -> bool) (l : list A) :
  find p l = None -> existsb p l = false.
Proof.
  induction l as [|x l IH]; simpl; [reflexivity|].
  destruct (p x); [discriminate | exact IH].
Qed.

Lemma find_none_filter {A : Type} (p : A -> bool) (l : list A) :
  find p l = None -> filter p l = [].
Proof.
  induction l as [|x l IH]; simpl; [reflexivity|].
  destruct (p x); [discriminate | exact IH].
Qed.

Lemma existsb_false_filter {A : Type} (p : A -> bool) (l : list A) :
  existsb p l = false -> filter p l = [].
Proof.
  induction l as [|x l IH]; simpl; [reflexivity|].
  destruct (p x); simpl; [discriminate | exact IH].
Qed.

Lemma find_map_stable {A : Type} (p : A -> bool) (g : A -> A) (l : list A) :
  (forall x, In x l -> p (g x) = p x) ->
  find p (map g l) = option_map g (find p l).
Proof.
  induction l as [|x l IH]; simpl; intros Hp; [reflexivity|].
  rewrite Hp by (left; reflexivity).
  destruct (p x); [reflexivity|]. apply IH.
  intros y Hy. apply Hp. right. exact Hy.
Qed.

Lemma filter_map_stable {A : Type} (p : A -> bool) (g : A -> A) (l : list A) :
  (forall x, p (g x) = p x) ->
  filter p (map g l) = map g (filter p l).
Proof.
  intros Hp. induction l as [|x l IH]; simpl; [reflexivity|].
  rewrite Hp. destruct (p x); simpl; rewrite IH; reflexivity.
Qed.

Lemma existsb_map_stable {A : Type} (p : A -> bool) (g : A -> A) (l : list A) :
  (forall x, p (g x) = p x) ->
  existsb p (map g l) = existsb p l.
Proof.
  intros Hp. induction l as [|x l IH]; simpl; [reflexivity|].
  rewrite Hp, IH. reflexivity.
Qed.

(** In a list whose keys are distinct, a row is found by its own key. *)
Lemma distinct_find {A K : Type} (eqb : K -> K -> bool) (key : A -> K)
    (eqb_true : forall a b, eqb a b = true <-> a = b)
    (l : list A) (x : A) :
  distinct eqb (map key l) = true ->
  In x l ->
  find (fun y => eqb (key y) (key x)) l = Some x.
Proof.
  induction l as [|y l IH]; simpl; intros Hd Hin; [contradiction|].
  apply andb_true_iff in Hd. destruct Hd as [Hfresh Hd].
  destruct Hin as [-> | Hin].
  - replace (eqb (key x) (key x)) with true; [reflexivity|].
    symmetry. apply eqb_true. reflexivity.
  - destruct (eqb (key y) (key x)) eqn:E.
    + apply eqb_true in E. apply negb_true_iff in Hfresh.
      assert (existsb (eqb (key y)) (map key l) = true) as Hex.
      { apply existsb_exists. exists (key x). split.
        - apply in_map. exact Hin.
        - apply eqb_true. exact E. }
      rewrite Hex in Hfresh. discriminate.
    + apply IH; assumption.
Qed.

Lemma truthy_false_iff (s : string) : Py.truthy s = false <-> s = "".
Proof.
  unfold Py.truthy. rewrite negb_false_iff. apply String.eqb_eq.
Qed.

Lemma truthy_true_iff (s : string) : Py.truthy s = true <-> s <> "".
Proof.
  unfold Py.truthy. rewrite negb_true_iff. apply String.eqb_neq.
Qed.

Lemma same_pair_true (s r : Z) (f : Feedback.t) :
  same_pair s r f = true <->
  Feedback.sender_id f = s /\ Feedback.recipient_id f = r.
Proof.
  unfold same_pair. rewrite andb_true_iff, !Z.eqb_eq. reflexivity.
Qed.

(** ** The routes, case by case *)


(** A POST to [/give-feedback] by a logged-in user with a recipient id that
    parses: what is left of the route. *)
Lemma give_feedback_post (w : World) (rq : Request) (user : User.t) (r : Z) :
  current_user w = Some user ->
  method rq = POST ->
  Py.int (form_get (form rq) "recipient_id") = inl r ->
  give_feedback w rq =
  let content := Py.strip (form_get_default (form rq) "content" "") in
  let visible := Py.truthy_opt (form_get (form rq) "visible") in
  if negb (Py.truthy content) then (w, EmptyContent)
  else match Feedback_query_by_pair (db w) (User.id user) r with
       | Some existing =>
           match update_feedback (db w) existing content visible with
           | (d', None) =>
               (mkWorld d' (session w),
                flash_redirect "Feedback updated!" "success" "give_feedback")
           | (d', Some e) => (mkWorld d' (session w), Raise e)
           end
       | None =>
           match insert_feedback (db w) (now rq) (User.id user) r content visible with
           | (d', None) =>
               (mkWorld d' (session w),
                flash_redirect "Feedback sent!" "success" "give_feedback")
           | (d', Some e) => (mkWorld d' (session w), Raise e)
           end
       end.
Proof.
  intros Hu Hm Hr. unfold give_feedback. rewrite Hu, Hm, Hr. reflexivity.
Qed.



(** ** Authentication *)

(** C10. A user without a stored password hash passes no password check:
    [check_password] answers false for every candidate, the empty string
    included. *)
Theorem check_password_without_hash
    (check_password_hash : string -> string -> bool)
    (u : User.t) (raw : string) :
  User.password_hash u = None ->
  User.check_password check_password_hash u raw = false.
Proof.
  intros H. unfold User.check_password. rewrite H. reflexivity.
Qed.

Lemma check_password_without_hash_witness :
  User.check_password PlainHash.check Examples.alice "" = false.
Proof.
  apply (check_password_without_hash PlainHash.check Examples.alice "").
  reflexivity.
Defined.




(** C5. A POST to [/set-password] for a pending user is answered with the
    mismatch message exactly when the two passwords differ or one of them is
    missing or empty; the world is then left as it was: the pending user's
    row (and so its credential) and the session are unchanged. *)
Theorem set_password_mismatch
    (generate_password_hash : string -> string -> string)
    (w : World) (rq : Request) (pid : Z) (user : User.t) :
  pre_user_id (session w) = Some pid ->
  pid <> 0 ->
  User_query_get (db w) pid = Some user ->
  method rq = POST ->
  let p1 := form_get (form rq) "password" in
  let p2 := form_get (form rq) "confirm_password" in
  let res := set_password generate_password_hash w rq in
  (snd res = PasswordMismatch <->
   (p1 <> p2 \/ Py.truthy_opt p1 = false \/ Py.truthy_opt p2 = false))
  /\ (snd res = PasswordMismatch ->
      fst res = w
      /\ User_query_get (db (fst res)) pid = Some user
      /\ session (fst res) = session w).
Proof.
  intros Hpre Hpid Hget Hm p1 p2 res. subst res. unfold set_password.
  rewrite Hpre. apply Z.eqb_neq in Hpid. rewrite Hpid, Hget, Hm.
  fold p1. fold p2.
  destruct p1 as [raw|] eqn:E1; simpl.
  - destruct (Py.truthy raw) eqn:Et; simpl.
    + destruct p2 as [raw2|] eqn:E2; simpl.
      * destruct (String.eqb raw raw2) eqn:Ee; simpl.
        -- apply String.eqb_eq in Ee. subst raw2. split.
           ++ split; [discriminate|].
              intros [Hne | [Hf | Hf]];
                [congruence | discriminate | congruence].
           ++ discriminate.
        -- apply String.eqb_neq in Ee. split.
           ++ split; [|reflexivity]. intros _. left. congruence.
           ++ intros _. auto.
      * split.
        -- split; [|reflexivity]. intros _. left. discriminate.
        -- intros _. auto.
    + split.
      * split; [|reflexivity]. intros _. right. left. reflexivity.
      * intros _. auto.
  - split.
    + split; [|reflexivity]. intros _. right. left. reflexivity.
    + intros _. auto.
Qed.

Lemma set_password_mismatch_witness :
  set_password PlainHash.generate Examples.alice_pending
    (Examples.post [("password", "a"); ("confirm_password", "b")] 5)
  = (Examples.alice_pending, PasswordMismatch).
Proof.
  pose proof (set_password_mismatch PlainHash.generate Examples.alice_pending
                (Examples.post [("password", "a"); ("confirm_password", "b")] 5)
                1 Examples.alice
                eq_refl ltac:(discriminate) eq_refl eq_refl) as H.
  cbv zeta in H. destruct H as [Hiff Hkeep]. apply proj2 in Hiff.
  assert (form_get (form (Examples.post
                            [("password", "a"); ("confirm_password", "b")] 5))
                   "password"
          <> form_get (form (Examples.post
                               [("password", "a"); ("confirm_password", "b")] 5))
                      "confirm_password") as Hne.
  { simpl. intros E. inversion E. }
  specialize (Hiff (or_introl Hne)).
  destruct (Hkeep Hiff) as [Hw _].
  rewrite (surjective_pairing (set_password _ _ _)).
  rewrite Hw, Hiff. reflexivity.
Defined.

(** ** One row per pair *)

Lemma same_pair_sym (f g : Feedback.t) :
  same_pair (Feedback.sender_id f) (Feedback.recipient_id f) g
  = same_pair (Feedback.sender_id g) (Feedback.recipient_id g) f.
Proof.
  unfold same_pair.
  rewrite (Z.eqb_sym (Feedback.sender_id g)), (Z.eqb_sym (Feedback.recipient_id g)).
  reflexivity.
Qed.

Lemma one_per_pair_snoc (l : list Feedback.t) (f : Feedback.t) :
  one_per_pair l = true ->
  existsb (same_pair (Feedback.sender_id f) (Feedback.recipient_id f)) l = false ->
  one_per_pair (l ++ [f]) = true.
Proof.
  induction l as [|g l IH]; simpl; intros Hl Hf; [reflexivity|].
  apply andb_true_iff in Hl. destruct Hl as [Hg Hl].
  apply orb_false_iff in Hf. destruct Hf as [Hfg Hf].
  rewrite existsb_app. simpl. rewrite orb_false_r.
  apply negb_true_iff in Hg. rewrite Hg, same_pair_sym, Hfg. simpl.
  apply IH; assumption.
Qed.

(** The boolean invariant says what its name says: no ordered pair has more
    than one row. *)
Lemma one_per_pair_count (l : list Feedback.t) :
  one_per_pair l = true <-> forall s r, (count_pair s r l <= 1)%nat.
Proof.
  unfold count_pair. induction l as [|f l IH]; simpl.
  - split; [intros _ s r; simpl; lia | reflexivity].
  - rewrite andb_true_iff, negb_true_iff, IH. split.
    + intros [Hf Hl] s r. destruct (same_pair s r f) eqn:E.
      * apply same_pair_true in E. destruct E as [<- <-].
        rewrite (existsb_false_filter _ _ Hf). simpl. lia.
      * apply Hl.
    + intros H. split.
      * destruct (existsb _ l) eqn:E; [|reflexivity].
        apply existsb_exists in E. destruct E as [g [Hin Hg]].
        specialize (H (Feedback.sender_id f) (Feedback.recipient_id f)).
        replace (same_pair (Feedback.sender_id f) (Feedback.recipient_id f) f)
          with true in H
          by (symmetry; apply same_pair_true; split; reflexivity).
        simpl in H.
        assert (In g (filter (same_pair (Feedback.sender_id f)
                                        (Feedback.recipient_id f)) l)) as Hg'
          by (apply filter_In; split; assumption).
        destruct (filter _ l); [contradiction | simpl in H; lia].
      * intros s r. specialize (H s r).
        destruct (same_pair s r f); simpl in H; lia.
Qed.

Lemma one_per_pair_find (l : list Feedback.t) (s r : Z) (x : Feedback.t) :
  one_per_pair l = true ->
  find (same_pair s r) l = Some x ->
  filter (same_pair s r) l = [x].
Proof.
  induction l as [|f l IH]; simpl; intros Hl Hx; [discriminate|].
  apply andb_true_iff in Hl. destruct Hl as [Hf Hl].
  destruct (same_pair s r f) eqn:E.
  - inversion Hx. subst x. apply same_pair_true in E. destruct E as [<- <-].
    apply negb_true_iff in Hf. rewrite (existsb_false_filter _ _ Hf).
    reflexivity.
  - apply IH; assumption.
Qed.

Lemma current_user_has_user (w : World) (user : User.t) :
  current_user w = Some user -> has_user (db w) (User.id user) = true.
Proof.
  unfold current_user, User_query_get, has_user.
  destruct (user_id (session w)) as [uid|]; [|discriminate].
  destruct (uid =? 0); [discriminate|].
  intros H. apply find_some in H. destruct H as [Hin Hid].
  apply existsb_exists. exists user. split; [exact Hin|].
  apply Z.eqb_refl.
Qed.

Lemma filter_comm {A : Type} (p q : A -> bool) (l : list A) :
  filter p (filter q l) = filter q (filter p l).
Proof.
  induction l as [|x l IH]; simpl; [reflexivity|].
  destruct (q x) eqn:Eq; destruct (p x) eqn:Ep; simpl;
    rewrite ?Eq, ?Ep, IH; reflexivity.
Qed.

Lemma filter_split_length {A : Type} (q : A -> bool) (l : list A) :
  (List.length (filter (fun x => negb (q x)) l) + List.length (filter q l)
   = List.length l)%nat.
Proof.
  induction l as [|x l IH]; simpl; [reflexivity|].
  destruct (q x); simpl; lia.
Qed.

(** Rewriting rows by a function that keeps sender and recipient commutes
    with the selection of a pair. *)
Lemma filter_move_rewritten (s r : Z) (hit : Feedback.t -> bool)
    (g : Feedback.t -> Feedback.t) (l : list Feedback.t) :
  (forall f, same_pair s r (g f) = same_pair s r f) ->
  filter (same_pair s r) (move_rewritten hit g l)
  = move_rewritten hit g (filter (same_pair s r) l).
Proof.
  intros Hg. unfold move_rewritten.
  rewrite filter_app, filter_map_stable by exact Hg.
  rewrite (filter_comm (same_pair s r)), (filter_comm (same_pair s r) hit).
  reflexivity.
Qed.

Lemma length_move_rewritten (hit : Feedback.t -> bool)
    (g : Feedback.t -> Feedback.t) (l : list Feedback.t) :
  List.length (move_rewritten hit g l) = List.length l.
Proof.
  unfold move_rewritten. rewrite length_app, length_map.
  apply filter_split_length.
Qed.

Lemma in_move_rewritten (hit : Feedback.t -> bool)
    (g : Feedback.t -> Feedback.t) (l : list Feedback.t) (x : Feedback.t) :
  In x (move_rewritten hit g l) <->
  (In x l /\ hit x = false) \/ (exists y, In y l /\ hit y = true /\ x = g y).
Proof.
  unfold move_rewritten. rewrite in_app_iff, filter_In, in_map_iff.
  rewrite negb_true_iff. split.
  - intros [H | [y [Hy Hin]]]; [left; exact H|].
    apply filter_In in Hin. right. exists y. intuition congruence.
  - intros [H | [y [Hin [Hh Hx]]]]; [left; exact H|].
    right. exists y. rewrite filter_In. intuition congruence.
Qed.

Lemma one_per_pair_move_rewritten (hit : Feedback.t -> bool)
    (g : Feedback.t -> Feedback.t) (l : list Feedback.t) :
  (forall s r f, same_pair s r (g f) = same_pair s r f) ->
  one_per_pair l = true ->
  one_per_pair (move_rewritten hit g l) = true.
Proof.
  intros Hg Hl. apply one_per_pair_count. intros s r.
  pose proof (proj1 (one_per_pair_count l) Hl s r) as Hc.
  unfold count_pair in *.
  rewrite filter_move_rewritten by (intros f; apply Hg).
  rewrite length_move_rewritten. exact Hc.
Qed.

(** What the commit of an update does, case by case. *)
Lemma update_feedback_cases (d : DB) (existing : Feedback.t)
    (c : string) (v : bool) :
  (Feedback.content existing = c /\ Feedback.visible existing = v
   /\ update_feedback d existing c v = (d, None))
  \/ (Py.has_nul c = true
      /\ update_feedback d existing c v = (d, Some Py.ValueError))
  \/ (Py.has_nul c = false
      /\ update_feedback d existing c v
         = (mkDB (users d)
                 (move_rewritten
                    (fun f => Feedback.id f =? Feedback.id existing)
                    (fun f => Feedback.with_content_visible f c v)
                    (feedbacks d))
                 (feedback_seq d),
            None)).
Proof.
  unfold update_feedback.
  destruct (String.eqb (Feedback.content existing) c) eqn:Ec;
    destruct (Bool.eqb (Feedback.visible existing) v) eqn:Ev; simpl.
  - left. apply String.eqb_eq in Ec. apply Bool.eqb_prop in Ev. auto.
  - destruct (Py.has_nul c); auto.
  - destruct (Py.has_nul c); auto.
  - destruct (Py.has_nul c); auto.
Qed.

(** What the commit of a new row does, case by case. *)
Lemma insert_feedback_cases (d : DB) (t s r : Z) (c : string) (v : bool) :
  (Py.has_nul c = true
   /\ insert_feedback d t s r c v = (d, Some Py.ValueError))
  \/ (Py.has_nul c = false
      /\ Py.in_int32 s && Py.in_int32 r = false
      /\ insert_feedback d t s r c v = (d, Some Py.DataError))
  \/ (Py.has_nul c = false
      /\ Py.in_int32 s && Py.in_int32 r = true
      /\ has_user d s && has_user d r = false
      /\ insert_feedback d t s r c v
         = (mkDB (users d) (feedbacks d) (feedback_seq d + 1),
            Some Py.IntegrityError))
  \/ (Py.has_nul c = false
      /\ Py.in_int32 s && Py.in_int32 r = true
      /\ has_user d s = true /\ has_user d r = true
      /\ insert_feedback d t s r c v
         = (mkDB (users d)
                 (feedbacks d ++ [Feedback.mk (feedback_seq d + 1) s r c v t])
                 (feedback_seq d + 1),
            None)).
Proof.
  unfold insert_feedback.
  destruct (Py.has_nul c); [auto|].
  destruct (Py.in_int32 s && Py.in_int32 r); simpl; [|auto].
  destruct (has_user d s) eqn:Es; destruct (has_user d r) eqn:Er; simpl;
    auto 10.
Qed.

(** What a commit may have done to the store. *)
Lemma update_feedback_shape (d : DB) (existing : Feedback.t)
    (c : string) (v : bool) :
  users (fst (update_feedback d existing c v)) = users d
  /\ feedback_seq (fst (update_feedback d existing c v)) = feedback_seq d
  /\ (feedbacks (fst (update_feedback d existing c v)) = feedbacks d
      \/ feedbacks (fst (update_feedback d existing c v))
         = move_rewritten (fun f => Feedback.id f =? Feedback.id existing)
                          (fun f => Feedback.with_content_visible f c v)
                          (feedbacks d)).
Proof.
  destruct (update_feedback_cases d existing c v)
    as [[_ [_ ->]] | [[_ ->] | [_ ->]]]; simpl; auto.
Qed.

Lemma insert_feedback_shape (d : DB) (t s r : Z) (c : string) (v : bool) :
  users (fst (insert_feedback d t s r c v)) = users d
  /\ ((feedbacks (fst (insert_feedback d t s r c v)) = feedbacks d
       /\ (feedback_seq (fst (insert_feedback d t s r c v)) = feedback_seq d
           \/ feedback_seq (fst (insert_feedback d t s r c v))
              = feedback_seq d + 1))
      \/ (has_user d s = true /\ has_user d r = true
          /\ feedbacks (fst (insert_feedback d t s r c v))
             = (feedbacks d ++ [Feedback.mk (feedback_seq d + 1) s r c v t])%list
          /\ feedback_seq (fst (insert_feedback d t s r c v))
             = feedback_seq d + 1)).
Proof.
  destruct (insert_feedback_cases d t s r c v)
    as [[_ ->] | [[_ [_ ->]] | [[_ [_ [_ ->]]] | [_ [_ [Hs [Hr ->]]]]]]];
    simpl; auto 10.
Qed.

Lemma users_ok_same_users (d d' : DB) :
  users d' = users d -> users_ok d' = users_ok d.
Proof. intros H. unfold users_ok. rewrite H. reflexivity. Qed.

Lemma users_ok_in_int32 (d : DB) (uid : Z) :
  users_ok d = true -> has_user d uid = true -> Py.in_int32 uid = true.
Proof.
  unfold users_ok, has_user. rewrite !andb_true_iff.
  intros [[_ Hpos] Hmax] Hex.
  apply existsb_exists in Hex. destruct Hex as [u [Hin Hid]].
  apply Z.eqb_eq in Hid. subst uid.
  rewrite forallb_forall in Hpos, Hmax.
  specialize (Hpos u Hin). specialize (Hmax u Hin).
  apply andb_true_iff in Hmax. destruct Hmax as [Hmax _].
  apply Z.ltb_lt in Hpos. apply Z.leb_le in Hmax.
  unfold Py.in_int32. apply andb_true_iff.
  split; apply Z.leb_le; lia.
Qed.

(** The upsert proper, first case: a POST by a logged-in user with content
    that is not blank and holds no NUL finds a row of the pair; the row is
    rewritten, unless it holds the submitted content and flag already. *)
Lemma give_feedback_update
    (w : World) (rq : Request) (user : User.t) (r : Z) (existing : Feedback.t) :
  current_user w = Some user ->
  method rq = POST ->
  Py.int (form_get (form rq) "recipient_id") = inl r ->
  Py.strip (form_get_default (form rq) "content" "") <> "" ->
  Py.has_nul (Py.strip (form_get_default (form rq) "content" "")) = false ->
  Feedback_query_by_pair (db w) (User.id user) r = Some existing ->
  let c := Py.strip (form_get_default (form rq) "content" "") in
  let v := Py.truthy_opt (form_get (form rq) "visible") in
  exists fs,
    give_feedback w rq
    = (mkWorld (mkDB (users (db w)) fs (feedback_seq (db w))) (session w),
       flash_redirect "Feedback updated!" "success" "give_feedback")
    /\ ((fs = feedbacks (db w)
         /\ Feedback.content existing = c /\ Feedback.visible existing = v)
        \/ fs = move_rewritten
                  (fun f => Feedback.id f =? Feedback.id existing)
                  (fun f => Feedback.with_content_visible f c v)
                  (feedbacks (db w))).
Proof.
  intros Hu Hm Hr Hc Hnul He c v.
  rewrite (give_feedback_post w rq user r Hu Hm Hr). cbv zeta.
  apply truthy_true_iff in Hc. rewrite Hc, He. simpl negb. cbv iota.
  destruct (update_feedback_cases (db w) existing c v)
    as [[Hsc [Hsv E]] | [[Hn E] | [_ E]]].
  - fold c v. rewrite E. exists (feedbacks (db w)). split; [|auto].
    destruct w as [[us fs q] ss]. reflexivity.
  - unfold c in Hn. rewrite Hnul in Hn. discriminate.
  - fold c v. rewrite E. eexists. split; [reflexivity|]. right. reflexivity.
Qed.

(** Second case: there is no row of the pair, and sender and recipient are
    users with ids of the column's range; a row is appended. *)
Lemma give_feedback_insert
    (w : World) (rq : Request) (user : User.t) (r : Z) :
  current_user w = Some user ->
  method rq = POST ->
  Py.int (form_get (form rq) "recipient_id") = inl r ->
  Py.strip (form_get_default (form rq) "content" "") <> "" ->
  Py.has_nul (Py.strip (form_get_default (form rq) "content" "")) = false ->
  Py.in_int32 (User.id user) = true ->
  Py.in_int32 r = true ->
  has_user (db w) r = true ->
  Feedback_query_by_pair (db w) (User.id user) r = None ->
  give_feedback w rq
  = (mkWorld
       (mkDB (users (db w))
             (feedbacks (db w)
              ++ [Feedback.mk (feedback_seq (db w) + 1) (User.id user) r
                    (Py.strip (form_get_default (form rq) "content" ""))
                    (Py.truthy_opt (form_get (form rq) "visible"))
                    (now rq)])
             (feedback_seq (db w) + 1))
       (session w),
     flash_redirect "Feedback sent!" "success" "give_feedback").
Proof.
  intros Hu Hm Hr Hc Hnul Hs32 Hr32 Hru He.
  rewrite (give_feedback_post w rq user r Hu Hm Hr). cbv zeta.
  apply truthy_true_iff in Hc. rewrite Hc, He. simpl negb. cbv iota.
  unfold insert_feedback.
  rewrite Hnul, Hs32, Hr32, (current_user_has_user w user Hu), Hru.
  reflexivity.
Qed.

(** After the upsert the pair has exactly one row, with the submitted
    content and flag; a row that was there keeps its identity and its
    creation time, a new one is stamped with the clock's reading. *)
Lemma give_feedback_single_row (w : World) (rq : Request) (user : User.t) (r : Z) :
  current_user w = Some user ->
  method rq = POST ->
  Py.int (form_get (form rq) "recipient_id") = inl r ->
  Py.strip (form_get_default (form rq) "content" "") <> "" ->
  Py.has_nul (Py.strip (form_get_default (form rq) "content" "")) = false ->
  Py.in_int32 (User.id user) = true ->
  Py.in_int32 r = true ->
  has_user (db w) r = true ->
  one_per_pair (feedbacks (db w)) = true ->
  exists f,
    filter (same_pair (User.id user) r) (feedbacks (db (fst (give_feedback w rq)))) = [f]
    /\ Feedback.content f = Py.strip (form_get_default (form rq) "content" "")
    /\ Feedback.visible f = Py.truthy_opt (form_get (form rq) "visible")
    /\ match Feedback_query_by_pair (db w) (User.id user) r with
       | Some existing =>
           Feedback.id f = Feedback.id existing
           /\ Feedback.created_at f = Feedback.created_at existing
       | None => Feedback.created_at f = now rq
       end.
Proof.
  intros Hu Hm Hr Hc Hnul Hs32 Hr32 Hru Hinv.
  destruct (Feedback_query_by_pair (db w) (User.id user) r)
    as [existing|] eqn:E.
  - destruct (give_feedback_update w rq user r existing Hu Hm Hr Hc Hnul E)
      as [fs [Hg Hfs]].
    cbv zeta in Hfs. rewrite Hg. simpl.
    unfold Feedback_query_by_pair in E.
    pose proof (one_per_pair_find _ _ _ _ Hinv E) as Hone.
    destruct Hfs as [[-> [Hsc Hsv]] | ->].
    + exists existing. rewrite Hone. auto.
    + exists (Feedback.with_content_visible existing
                (Py.strip (form_get_default (form rq) "content" ""))
                (Py.truthy_opt (form_get (form rq) "visible"))).
      rewrite filter_move_rewritten by reflexivity.
      rewrite Hone. unfold move_rewritten. simpl.
      rewrite Z.eqb_refl. simpl. auto.
  - rewrite (give_feedback_insert w rq user r Hu Hm Hr Hc Hnul Hs32 Hr32 Hru E).
    simpl. eexists.
    unfold Feedback_query_by_pair in E.
    rewrite filter_app, (find_none_filter _ _ E). simpl.
    unfold same_pair. simpl. rewrite !Z.eqb_refl. simpl.
    repeat split; reflexivity.
Qed.

(** Serving [/give-feedback] keeps the store at one row per ordered pair at
    most, whatever the request and however it ends. *)
Lemma give_feedback_one_per_pair (w : World) (rq : Request) :
  one_per_pair (feedbacks (db w)) = true ->
  one_per_pair (feedbacks (db (fst (give_feedback w rq)))) = true.
Proof.
  intros Hinv. unfold give_feedback.
  destruct (current_user w) as [user|]; [|exact Hinv].
  destruct (method rq); [exact Hinv|].
  destruct (Py.int _) as [r|e]; [|exact Hinv].
  destruct (negb _); [exact Hinv|].
  destruct (Feedback_query_by_pair (db w) (User.id user) r)
    as [existing|] eqn:E.
  - destruct (update_feedback_cases (db w) existing
                (Py.strip (form_get_default (form rq) "content" ""))
                (Py.truthy_opt (form_get (form rq) "visible")))
      as [[_ [_ ->]] | [[_ ->] | [_ ->]]]; simpl; try exact Hinv.
    apply one_per_pair_move_rewritten; [reflexivity | exact Hinv].
  - destruct (insert_feedback_cases (db w) (now rq) (User.id user) r
                (Py.strip (form_get_default (form rq) "content" ""))
                (Py.truthy_opt (form_get (form rq) "visible")))
      as [[_ ->] | [[_ [_ ->]] | [[_ [_ [_ ->]]] | [_ [_ [_ [_ ->]]]]]]];
      simpl; try exact Hinv.
    apply one_per_pair_snoc; [exact Hinv|]. simpl.
    apply find_none_existsb. exact E.
Qed.

(** The other routes leave the feedback table alone. *)
Lemma serve_other_feedbacks
    (generate_password_hash : string -> string -> string)
    (check_password_hash : string -> string -> bool)
    (r : Route) (w : World) (rq : Request) :
  r <> RGiveFeedback ->
  feedbacks (db (fst (serve generate_password_hash check_password_hash r w rq)))
  = feedbacks (db w).
Proof.
  intros Hr. destruct r; simpl; try congruence.
  - unfold login. destruct (method rq); [reflexivity|]. cbv zeta.
    destruct (Py.has_nul _); [reflexivity|].
    destruct (User_query_by_email _ _) as [u|]; [|reflexivity].
    destruct (negb _); [reflexivity|].
    destruct (User.check_password _ _ _); reflexivity.
  - unfold set_password. cbv zeta.
    destruct (pre_user_id (session w)) as [pid|]; [|reflexivity].
    destruct (pid =? 0); [reflexivity|].
    destruct (User_query_get _ _) as [u|]; [|reflexivity].
    destruct (method rq); [reflexivity|].
    destruct (form_get (form rq) "password") as [raw|]; [|reflexivity].
    destruct (_ || _); reflexivity.
  - unfold dashboard. destruct (current_user w); reflexivity.
  - unfold view_feedback. destruct (current_user w); reflexivity.
Qed.

Lemma find_hd_filter {A : Type} (p : A -> bool) (l : list A) :
  find p l = hd_error (filter p l).
Proof.
  induction l as [|x l IH]; simpl; [reflexivity|].
  destruct (p x); [reflexivity | exact IH].
Qed.


(** ** Feedback *)

(** C4. A POST to [/give-feedback] by a logged-in user, with a recipient id
    that parses, is answered with the empty-content message exactly when the
    content is empty once stripped; the world is then left as it was. *)
Theorem give_feedback_empty_content
    (w : World) (rq : Request) (user : User.t) (r : Z) :
  current_user w = Some user ->
  method rq = POST ->
  Py.int (form_get (form rq) "recipient_id") = inl r ->
  (snd (give_feedback w rq) = EmptyContent <->
   Py.strip (form_get_default (form rq) "content" "") = "")
  /\ (snd (give_feedback w rq) = EmptyContent -> fst (give_feedback w rq) = w).
Proof.
  intros Hu Hm Hr.
  rewrite (give_feedback_post w rq user r Hu Hm Hr). cbv zeta.
  destruct (Py.truthy (Py.strip (form_get_default (form rq) "content" "")))
    eqn:Et; simpl.
  - apply truthy_true_iff in Et.
    assert (forall x : World * Response,
              (exists d m, x = (d, flash_redirect m "success" "give_feedback"))
              \/ (exists d e, x = (d, Raise e)) ->
              snd x <> EmptyContent) as Hne.
    { intros x [[d [m ->]] | [d [e ->]]]; simpl; discriminate. }
    match goal with
    | |- (snd ?x = _ <-> _) /\ _ =>
        assert (snd x <> EmptyContent) as Hx
    end.
    { apply Hne.
      destruct (Feedback_query_by_pair _ _ _) as [existing|].
      - destruct (update_feedback _ _ _ _) as [d' [e|]];
          [right | left]; eauto.
      - destruct (insert_feedback _ _ _ _ _ _) as [d' [e|]];
          [right | left]; eauto. }
    split; [split|]; intros; contradiction.
  - apply truthy_false_iff in Et. simpl.
    split; [split|]; intros; auto.
Qed.

Lemma give_feedback_empty_content_witness :
  give_feedback Examples.alice_in
    (Examples.post [("recipient_id", "2"); ("content", "   ")] 10)
  = (Examples.alice_in, EmptyContent).
Proof.
  pose proof (give_feedback_empty_content Examples.alice_in
                (Examples.post [("recipient_id", "2"); ("content", "   ")] 10)
                Examples.alice 2 eq_refl eq_refl eq_refl) as [Hiff Hkeep].
  apply proj2 in Hiff. specialize (Hiff eq_refl).
  rewrite (surjective_pairing (give_feedback _ _)).
  rewrite (Hkeep Hiff), Hiff. reflexivity.
Defined.




(** C3. The store holds at most one feedback row per ordered pair, and
    serving requests keeps it so: one request to [/give-feedback], however
    it ends, and any run of requests to the routes. *)
Theorem feedback_one_per_pair_invariant
    (generate_password_hash : string -> string -> string)
    (check_password_hash : string -> string -> bool)
    (w : World) (rq : Request) (rs : list (Route * Request)) :
  one_per_pair (feedbacks (db w)) = true ->
  one_per_pair (feedbacks (db (fst (give_feedback w rq)))) = true
  /\ one_per_pair
       (feedbacks (db (run generate_password_hash check_password_hash w rs)))
     = true.
Proof.
  intros Hinv. split; [apply give_feedback_one_per_pair; exact Hinv|].
  revert w Hinv. induction rs as [|[r rq'] rs IH]; intros w Hinv; simpl.
  - exact Hinv.
  - apply IH. destruct r;
      try (rewrite serve_other_feedbacks; [exact Hinv | discriminate]).
    simpl. apply give_feedback_one_per_pair. exact Hinv.
Qed.

Lemma feedback_one_per_pair_invariant_witness :
  one_per_pair
    (feedbacks (db (fst (give_feedback Examples.alice_in
                           (Examples.submit "2" "x" (Some "on") 10)))))
  = true
  /\ one_per_pair
       (feedbacks (db (run PlainHash.generate PlainHash.check Examples.alice_in
          [(RGiveFeedback, Examples.submit "2" "x" (Some "on") 10);
           (RGiveFeedback, Examples.submit "2" "y" None 20)])))
     = true.
Proof.
  apply (feedback_one_per_pair_invariant PlainHash.generate PlainHash.check
           Examples.alice_in (Examples.submit "2" "x" (Some "on") 10)
           [(RGiveFeedback, Examples.submit "2" "x" (Some "on") 10);
            (RGiveFeedback, Examples.submit "2" "y" None 20)]).
  reflexivity.
Defined.







(** ** Listing feedback *)

Lemma insert_desc_perm (f : Feedback.t) (l : list Feedback.t) :
  Permutation (f :: l) (insert_desc f l).
Proof.
  induction l as [|g l IH]; simpl; [reflexivity|].
  destruct (Feedback.created_at g <=? Feedback.created_at f); [reflexivity|].
  rewrite perm_swap. apply perm_skip. exact IH.
Qed.

Lemma order_by_created_at_desc_perm (l : list Feedback.t) :
  Permutation l (order_by_created_at_desc l).
Proof.
  induction l as [|f l IH]; simpl; [reflexivity|].
  rewrite <- insert_desc_perm. apply perm_skip. exact IH.
Qed.

Lemma insert_desc_hd (g f : Feedback.t) (l : list Feedback.t) :
  newer_or_same g f ->
  HdRel newer_or_same g l ->
  HdRel newer_or_same g (insert_desc f l).
Proof.
  intros Hgf Hl. destruct l as [|h l]; simpl.
  - constructor. exact Hgf.
  - destruct (Feedback.created_at h <=? Feedback.created_at f).
    + constructor. exact Hgf.
    + constructor. inversion Hl. assumption.
Qed.

Lemma insert_desc_sorted (f : Feedback.t) (l : list Feedback.t) :
  Sorted newer_or_same l -> Sorted newer_or_same (insert_desc f l).
Proof.
  induction l as [|g l IH]; simpl; intros Hs.
  - repeat constructor.
  - destruct (Feedback.created_at g <=? Feedback.created_at f) eqn:E.
    + constructor; [exact Hs|]. constructor.
      unfold newer_or_same. apply Z.leb_le. exact E.
    + inversion Hs as [|? ? Hs' Hhd]; subst.
      constructor; [apply IH; exact Hs'|].
      apply insert_desc_hd; [|exact Hhd].
      unfold newer_or_same. apply Z.leb_gt in E. lia.
Qed.

Lemma order_by_created_at_desc_sorted (l : list Feedback.t) :
  StronglySorted newer_or_same (order_by_created_at_desc l).
Proof.
  apply Sorted_StronglySorted.
  - intros a b c Hab Hbc. unfold newer_or_same in *. lia.
  - induction l as [|f l IH]; simpl; [constructor|].
    apply insert_desc_sorted. exact IH.
Qed.

(** C9. For a logged-in user, [/view-feedback] renders the rows the user
    sent and the rows the user received, each list holding exactly those
    rows and ordered by creation time, newest first. *)
Theorem view_feedback_newest_first (w : World) (rq : Request) (user : User.t) :
  current_user w = Some user ->
  exists given received,
    view_feedback w rq = (w, RenderFeedback user given received)
    /\ Permutation
         (filter (fun f => Feedback.sender_id f =? User.id user) (feedbacks (db w)))
         given
    /\ StronglySorted newer_or_same given
    /\ Permutation
         (filter (fun f => Feedback.recipient_id f =? User.id user) (feedbacks (db w)))
         received
    /\ StronglySorted newer_or_same received.
Proof.
  intros Hu. unfold view_feedback. rewrite Hu. cbv zeta.
  eexists. eexists. split; [reflexivity|].
  repeat split;
    first [apply order_by_created_at_desc_perm
          | apply order_by_created_at_desc_sorted].
Qed.

Lemma view_feedback_newest_first_witness :
  exists given received,
    view_feedback
      (mkWorld (mkDB [Examples.alice; Examples.bob]
                     [Feedback.mk 1 1 2 "to bob" true 10;
                      Feedback.mk 2 2 1 "to alice" false 20;
                      Feedback.mk 3 1 1 "note" true 30]
                     3)
               (mkSession (Some 1) None))
      (mkRequest GET [] 40 "")
    = (mkWorld (mkDB [Examples.alice; Examples.bob]
                     [Feedback.mk 1 1 2 "to bob" true 10;
                      Feedback.mk 2 2 1 "to alice" false 20;
                      Feedback.mk 3 1 1 "note" true 30]
                     3)
               (mkSession (Some 1) None),
       RenderFeedback Examples.alice given received)
    /\ StronglySorted newer_or_same given
    /\ StronglySorted newer_or_same received.
Proof.
  destruct (view_feedback_newest_first
              (mkWorld (mkDB [Examples.alice; Examples.bob]
                             [Feedback.mk 1 1 2 "to bob" true 10;
                              Feedback.mk 2 2 1 "to alice" false 20;
                              Feedback.mk 3 1 1 "note" true 30]
                             3)
                       (mkSession (Some 1) None))
              (mkRequest GET [] 40 "") Examples.alice eq_refl)
    as [given [received [Hv [_ [Hg [_ Hr]]]]]].
  exists given, received. repeat split; assumption.
Defined.

(** ** First login *)

Lemma users_ok_get (d : DB) (u : User.t) :
  users_ok d = true -> In u (users d) ->
  User_query_get d (User.id u) = Some u
  /\ User_query_by_email d (User.email u) = Some u
  /\ (User.id u =? 0) = false.
Proof.
  unfold users_ok. rewrite !andb_true_iff.
  intros [[[Hid Hem] Hpos] _] Hin.
  repeat split.
  - apply (distinct_find Z.eqb User.id Z.eqb_eq); assumption.
  - apply (distinct_find String.eqb User.email String.eqb_eq); assumption.
  - rewrite forallb_forall in Hpos. specialize (Hpos u Hin).
    apply Z.ltb_lt in Hpos. apply Z.eqb_neq. lia.
Qed.

Lemma users_ok_email (d : DB) (u : User.t) :
  users_ok d = true -> In u (users d) ->
  Py.has_nul (User.email u) = false.
Proof.
  unfold users_ok. rewrite !andb_true_iff. intros [_ Htext] Hin.
  rewrite forallb_forall in Htext. specialize (Htext u Hin).
  apply andb_true_iff in Htext. destruct Htext as [_ Hn].
  apply negb_true_iff in Hn. exact Hn.
Qed.

Lemma users_ok_same_id (d : DB) (u x : User.t) :
  users_ok d = true -> In u (users d) -> In x (users d) ->
  User.id x = User.id u -> x = u.
Proof.
  intros Hok Hu Hx Hid.
  destruct (users_ok_get d u Hok Hu) as [Hgu _].
  destruct (users_ok_get d x Hok Hx) as [Hgx _].
  rewrite Hid in Hgx. congruence.
Qed.

Section RoundTrip.

(** What is assumed of werkzeug.security: a hash is never the empty string,
    and a password passes the check against its own hash, whatever the
    salt. *)
Variable generate_password_hash : string -> string -> string.
Variable check_password_hash : string -> string -> bool.
Hypothesis generate_truthy :
  forall salt raw, Py.truthy (generate_password_hash salt raw) = true.
Hypothesis check_generate :
  forall salt raw,
    check_password_hash (generate_password_hash salt raw) raw = true.

(** C6. For a user of the store without a credential and a password that is
    not empty: the POST of the user's email to [/login] leads to the
    password form with the user pending; the POST of the password, twice,
    to [/set-password] stores its hash and logs the user in; after that the
    password passes [check_password], and the POST of email and password to
    [/login] logs the user in. *)
Theorem set_password_round_trip
    (w : World) (u : User.t) (e p : string)
    (t1 t2 t3 : Z) (s1 s2 s3 : string) :
  users_ok (db w) = true ->
  In u (users (db w)) ->
  Py.truthy_opt (User.password_hash u) = false ->
  Py.lower (Py.strip e) = User.email u ->
  p <> "" ->
  let r1 := login check_password_hash w
                  (mkRequest POST [("email", e)] t1 s1) in
  let r2 := set_password generate_password_hash (fst r1)
                         (mkRequest POST [("password", p); ("confirm_password", p)]
                                    t2 s2) in
  let r3 := login check_password_hash (fst r2)
                  (mkRequest POST [("email", e); ("password", p)] t3 s3) in
  let u' := User.set_password generate_password_hash u s2 p in
  snd r1 = Redirect "set_password" None
  /\ pre_user_id (session (fst r1)) = Some (User.id u)
  /\ snd r2 = flash_redirect "Password set! Logged in." "success" "dashboard"
  /\ session (fst r2) = mkSession (Some (User.id u)) None
  /\ User_query_get (db (fst r2)) (User.id u) = Some u'
  /\ User.check_password check_password_hash u' p = true
  /\ snd r3 = flash_redirect ("Welcome, " ++ User.name u ++ "!")
                             "success" "dashboard"
  /\ user_id (session (fst r3)) = Some (User.id u).
Proof.
  intros Hok Hin Hnone Hemail Hp r1 r2 r3 u'.
  destruct (users_ok_get (db w) u Hok Hin) as [Hget [Hby Hnz]].
  assert (r1 = (mkWorld (db w) (mkSession (user_id (session w)) (Some (User.id u))),
                Redirect "set_password" None)) as E1.
  { unfold r1, login. simpl. unfold form_get_default. simpl.
    rewrite Hemail, (users_ok_email (db w) u Hok Hin), Hby, Hnone.
    reflexivity. }
  assert (User.check_password check_password_hash u' p = true) as Hchk.
  { unfold u', User.check_password, User.set_password. simpl.
    rewrite generate_truthy. simpl. apply check_generate. }
  assert (r2 = (mkWorld (update_user (db w) u') (mkSession (Some (User.id u)) None),
                flash_redirect "Password set! Logged in." "success" "dashboard"))
    as E2.
  { unfold r2, set_password. rewrite E1. simpl.
    rewrite Hnz, Hget. apply truthy_true_iff in Hp. rewrite Hp.
    rewrite String.eqb_refl. reflexivity. }
  assert (forall q : User.t -> bool,
            (forall x, In x (users (db w)) ->
               q (if User.id x =? User.id u' then u' else x) = q x) ->
            find q (users (update_user (db w) u'))
            = option_map (fun x => if User.id x =? User.id u' then u' else x)
                         (find q (users (db w)))) as Hfind.
  { intros q Hq. simpl. apply find_map_stable. exact Hq. }
  assert (User_query_get (update_user (db w) u') (User.id u) = Some u') as Hget'.
  { unfold User_query_get. rewrite Hfind.
    - fold (User_query_get (db w) (User.id u)). rewrite Hget. simpl.
      rewrite Z.eqb_refl. reflexivity.
    - intros x _. simpl. destruct (User.id x =? User.id u) eqn:Ex; simpl.
      + rewrite Z.eqb_refl. reflexivity.
      + exact Ex. }
  assert (User_query_by_email (update_user (db w) u') (User.email u) = Some u')
    as Hby'.
  { unfold User_query_by_email. rewrite Hfind.
    - fold (User_query_by_email (db w) (User.email u)). rewrite Hby. simpl.
      rewrite Z.eqb_refl. reflexivity.
    - intros x Hx. simpl. destruct (User.id x =? User.id u) eqn:Ex; simpl.
      + apply Z.eqb_eq in Ex.
        rewrite (users_ok_same_id (db w) u x Hok Hin Hx Ex). reflexivity.
      + reflexivity. }
  assert (r3 = (mkWorld (update_user (db w) u') (mkSession (Some (User.id u)) None),
                flash_redirect ("Welcome, " ++ User.name u ++ "!")
                               "success" "dashboard")) as E3.
  { unfold r3, login. rewrite E2. simpl. unfold form_get_default. simpl.
    rewrite Hemail, (users_ok_email (db w) u Hok Hin), Hby'. simpl.
    rewrite generate_truthy. simpl.
    fold u'. rewrite Hchk. reflexivity. }
  rewrite E3, E2, E1. simpl. repeat split; assumption.
Qed.

End RoundTrip.

Lemma plain_generate_truthy (salt raw : string) :
  Py.truthy (PlainHash.generate salt raw) = true.
Proof. reflexivity. Qed.

Lemma plain_check_generate (salt raw : string) :
  PlainHash.check (PlainHash.generate salt raw) raw = true.
Proof. unfold PlainHash.check, PlainHash.generate. apply String.eqb_refl. Qed.

Lemma set_password_round_trip_witness :
  let r1 := login PlainHash.check Examples.fresh
                  (mkRequest POST [("email", " Alice@Class.in ")] 1 "s1") in
  let r2 := set_password PlainHash.generate (fst r1)
                         (mkRequest POST [("password", "a"); ("confirm_password", "a")]
                                    2 "s2") in
  let r3 := login PlainHash.check (fst r2)
                  (mkRequest POST [("email", " Alice@Class.in "); ("password", "a")]
                             3 "s3") in
  snd r2 = flash_redirect "Password set! Logged in." "success" "dashboard"
  /\ snd r3 = flash_redirect "Welcome, Alice!" "success" "dashboard"
  /\ user_id (session (fst r3)) = Some 1.
Proof.
  assert ("a" <> "") as Ha by discriminate.
  pose proof (set_password_round_trip PlainHash.generate PlainHash.check
                plain_generate_truthy plain_check_generate
                Examples.fresh Examples.alice " Alice@Class.in " "a"
                1 2 3 "s1" "s2" "s3"
                eq_refl (or_introl eq_refl) eq_refl eq_refl Ha) as H.
  cbv zeta in H. destruct H as [_ [_ [H2 [_ [_ [_ [H3 H4]]]]]]].
  cbv zeta. split; [exact H2 | split; [exact H3 | exact H4]].
Defined.

(** ** Beyond the claims: the session *)

Lemma check_password_true
    (check_password_hash : string -> string -> bool)
    (u : User.t) (raw : string) :
  User.check_password check_password_hash u raw = true ->
  exists h, User.password_hash u = Some h
            /\ Py.truthy h = true
            /\ check_password_hash h raw = true.
Proof.
  unfold User.check_password.
  destruct (User.password_hash u) as [h|]; [|discriminate].
  destruct (Py.truthy h) eqn:Et; simpl; [|discriminate].
  intros H. exists h. repeat split; [exact Et | exact H].
Qed.

(** X1. [/login] never logs a user in without a check: if the session
    names a user after the request, it named that user before, or that user
    is the one of the submitted email, has a stored hash, and the submitted
    password passed [check_password_hash] against it. *)
Theorem login_authenticates_only_checked
    (check_password_hash : string -> string -> bool)
    (w : World) (rq : Request) (uid : Z) :
  user_id (session (fst (login check_password_hash w rq))) = Some uid ->
  user_id (session w) = Some uid
  \/ exists user h,
       In user (users (db w))
       /\ User.id user = uid
       /\ User.email user
          = Py.lower (Py.strip (form_get_default (form rq) "email" ""))
       /\ User.password_hash user = Some h
       /\ check_password_hash h (form_get_default (form rq) "password" "") = true.
Proof.
  unfold login. destruct (method rq); [auto|]. cbv zeta.
  destruct (Py.has_nul _); [auto|].
  destruct (User_query_by_email _ _) as [user|] eqn:E; [|auto].
  destruct (negb _); [auto|].
  destruct (User.check_password _ _ _) eqn:Ec; [|auto].
  simpl. intros H. right.
  apply find_some in E. destruct E as [Hin He]. apply String.eqb_eq in He.
  destruct (check_password_true _ _ _ Ec) as [h [Hh [_ Hc]]].
  exists user, h. repeat split; try assumption. congruence.
Qed.

Lemma login_authenticates_only_checked_witness :
  user_id (session MoreExamples.with_password) = Some 1
  \/ exists user h,
       In user (users (db MoreExamples.with_password))
       /\ User.id user = 1
       /\ User.email user = "alice@class.in"
       /\ User.password_hash user = Some h
       /\ PlainHash.check h "pw1" = true.
Proof.
  exact (login_authenticates_only_checked PlainHash.check
           MoreExamples.with_password
           (Examples.post [("email", "Alice@class.in"); ("password", "pw1")] 5)
           1 eq_refl).
Defined.

(** X2. [/login] marks a user as pending (the first-login state) only if
    that user has no stored hash: a pending id after the request was there
    before, or belongs to the user of the submitted email, whose credential
    is unset. *)
Theorem login_pending_only_without_hash
    (check_password_hash : string -> string -> bool)
    (w : World) (rq : Request) (pid : Z) :
  pre_user_id (session (fst (login check_password_hash w rq))) = Some pid ->
  pre_user_id (session w) = Some pid
  \/ exists user,
       In user (users (db w))
       /\ User.id user = pid
       /\ User.email user
          = Py.lower (Py.strip (form_get_default (form rq) "email" ""))
       /\ Py.truthy_opt (User.password_hash user) = false.
Proof.
  unfold login. destruct (method rq); [auto|]. cbv zeta.
  destruct (Py.has_nul _); [auto|].
  destruct (User_query_by_email _ _) as [user|] eqn:E; [|auto].
  destruct (Py.truthy_opt (User.password_hash user)) eqn:Et; simpl.
  - destruct (User.check_password _ _ _); auto.
  - intros H. right.
    apply find_some in E. destruct E as [Hin He]. apply String.eqb_eq in He.
    exists user. repeat split; try assumption. congruence.
Qed.

Lemma login_pending_only_without_hash_witness :
  pre_user_id (session Examples.fresh) = Some 2
  \/ exists user,
       In user (users (db Examples.fresh))
       /\ User.id user = 2
       /\ User.email user = "bob@class.in"
       /\ Py.truthy_opt (User.password_hash user) = false.
Proof.
  exact (login_pending_only_without_hash PlainHash.check Examples.fresh
           (Examples.post [("email", " BOB@class.in"); ("password", "guess")] 5)
           2 eq_refl).
Defined.

(** X3. [/set-password] does nothing without a pending user: when the
    session has no pending id, or the id 0, or the id of no user, the
    request (GET or POST, whatever the form) leaves store and session as
    they were and is answered by a redirect to the login page with a
    message. *)
Theorem set_password_needs_pending
    (generate_password_hash : string -> string -> string)
    (w : World) (rq : Request) :
  (forall pid, pre_user_id (session w) = Some pid ->
               pid = 0 \/ User_query_get (db w) pid = None) ->
  fst (set_password generate_password_hash w rq) = w
  /\ exists message category,
       snd (set_password generate_password_hash w rq)
       = flash_redirect message category "login".
Proof.
  intros H. unfold set_password. cbv zeta.
  destruct (pre_user_id (session w)) as [pid|]; [|simpl; eauto].
  destruct (H pid eq_refl) as [-> | Hnone].
  - simpl. eauto.
  - destruct (pid =? 0); [simpl; eauto|]. rewrite Hnone. simpl. eauto.
Qed.

Lemma set_password_needs_pending_witness :
  fst (set_password PlainHash.generate Examples.fresh
         (Examples.post [("password", "a"); ("confirm_password", "a")] 5))
  = Examples.fresh
  /\ exists message category,
       snd (set_password PlainHash.generate Examples.fresh
              (Examples.post [("password", "a"); ("confirm_password", "a")] 5))
       = flash_redirect message category "login".
Proof.
  apply (set_password_needs_pending PlainHash.generate Examples.fresh
           (Examples.post [("password", "a"); ("confirm_password", "a")] 5)).
  intros pid H. discriminate H.
Defined.

Lemma update_user_ids (d : DB) (u' : User.t) :
  map User.id (users (update_user d u')) = map User.id (users d).
Proof.
  simpl. rewrite map_map. apply map_ext. intros x.
  destruct (User.id x =? User.id u') eqn:E; [|reflexivity].
  apply Z.eqb_eq in E. congruence.
Qed.

Lemma update_user_emails (d : DB) (u u' : User.t) :
  users_ok d = true -> In u (users d) ->
  User.id u' = User.id u -> User.email u' = User.email u ->
  map User.email (users (update_user d u')) = map User.email (users d).
Proof.
  intros Hok Hin Hid Hem. simpl. rewrite map_map. apply map_ext_in.
  intros x Hx. destruct (User.id x =? User.id u') eqn:E; [|reflexivity].
  apply Z.eqb_eq in E. rewrite Hid in E.
  rewrite (users_ok_same_id d u x Hok Hin Hx E). exact Hem.
Qed.

Lemma update_user_has_user (d : DB) (u' : User.t) (uid : Z) :
  has_user (update_user d u') uid = has_user d uid.
Proof.
  unfold has_user.
  assert (forall l, existsb (fun u => User.id u =? uid) l
                    = existsb (fun k => k =? uid) (map User.id l)) as H.
  { induction l as [|x l IH]; simpl; [reflexivity|]. rewrite IH. reflexivity. }
  rewrite !H, update_user_ids. reflexivity.
Qed.

(** ** Beyond the claims: what the routes do to the store *)

Lemma login_db (check_password_hash : string -> string -> bool)
    (w : World) (rq : Request) :
  db (fst (login check_password_hash w rq)) = db w.
Proof.
  unfold login. destruct (method rq); [reflexivity|]. cbv zeta.
  destruct (Py.has_nul _); [reflexivity|].
  destruct (User_query_by_email _ _) as [u|]; [|reflexivity].
  destruct (negb _); [reflexivity|].
  destruct (User.check_password _ _ _); reflexivity.
Qed.

Lemma set_password_db (generate_password_hash : string -> string -> string)
    (w : World) (rq : Request) :
  db (fst (set_password generate_password_hash w rq)) = db w
  \/ exists user raw,
       In user (users (db w))
       /\ db (fst (set_password generate_password_hash w rq))
          = update_user (db w)
              (User.set_password generate_password_hash user (salt rq) raw).
Proof.
  unfold set_password. cbv zeta.
  destruct (pre_user_id (session w)) as [pid|]; [|auto].
  destruct (pid =? 0); [auto|].
  destruct (User_query_get _ _) as [u|] eqn:E; [|auto].
  destruct (method rq); [auto|].
  destruct (form_get (form rq) "password") as [raw|]; [|auto].
  destruct (_ || _); [auto|].
  right. exists u, raw. apply find_some in E. simpl. tauto.
Qed.

Lemma give_feedback_db (w : World) (rq : Request) :
  db (fst (give_feedback w rq)) = db w
  \/ (exists existing c v,
        In existing (feedbacks (db w))
        /\ db (fst (give_feedback w rq))
           = fst (update_feedback (db w) existing c v))
  \/ (exists s r c v,
        db (fst (give_feedback w rq))
        = fst (insert_feedback (db w) (now rq) s r c v)).
Proof.
  unfold give_feedback.
  destruct (current_user w) as [user|]; [|auto].
  destruct (method rq); [auto|].
  destruct (Py.int _) as [r|e]; [|auto].
  destruct (negb _); [auto|].
  destruct (Feedback_query_by_pair _ _ _) as [existing|] eqn:E.
  - right. left. apply find_some in E. destruct E as [Hin _].
    exists existing, (Py.strip (form_get_default (form rq) "content" "")),
           (Py.truthy_opt (form_get (form rq) "visible")).
    split; [exact Hin|].
    destruct (update_feedback _ _ _ _) as [d' [e|]]; reflexivity.
  - right. right.
    exists (User.id user), r,
           (Py.strip (form_get_default (form rq) "content" "")),
           (Py.truthy_opt (form_get (form rq) "visible")).
    destruct (insert_feedback _ _ _ _ _ _) as [d' [e|]]; reflexivity.
Qed.

(** A property of the store that every route keeps holds after every run
    of requests. *)
Lemma run_keeps
    (generate_password_hash : string -> string -> string)
    (check_password_hash : string -> string -> bool)
    (P : DB -> Prop) :
  (forall (d : DB) (u : User.t) (salt raw : string),
     P d -> In u (users d) ->
     P (update_user d (User.set_password generate_password_hash u salt raw))) ->
  (forall d existing c v,
     P d -> In existing (feedbacks d) ->
     P (fst (update_feedback d existing c v))) ->
  (forall d t s r c v, P d -> P (fst (insert_feedback d t s r c v))) ->
  forall (rs : list (Route * Request)) (w : World),
    P (db w) ->
    P (db (run generate_password_hash check_password_hash w rs)).
Proof.
  intros Huser Hupd Hins.
  induction rs as [|[r rq] rs IH]; intros w Hw; simpl; [exact Hw|].
  apply IH. destruct r; simpl.
  - rewrite login_db. exact Hw.
  - destruct (set_password_db generate_password_hash w rq)
      as [-> | [u [raw [Hin ->]]]]; [exact Hw|].
    apply Huser; [exact Hw | exact Hin].
  - exact Hw.
  - unfold dashboard. destruct (current_user w); exact Hw.
  - destruct (give_feedback_db w rq)
      as [-> | [[ex [c [v [Hin ->]]]] | [s [r [c [v ->]]]]]].
    + exact Hw.
    + apply Hupd; assumption.
    + apply Hins. exact Hw.
  - unfold view_feedback. destruct (current_user w); exact Hw.
Qed.

Lemma forallb_by_columns (p : Z -> string -> bool) (l l' : list User.t) :
  map User.id l' = map User.id l ->
  map User.email l' = map User.email l ->
  forallb (fun u => p (User.id u) (User.email u)) l'
  = forallb (fun u => p (User.id u) (User.email u)) l.
Proof.
  revert l'. induction l as [|x l IH]; intros [|x' l'] Hid Hem;
    simpl in *; try discriminate; [reflexivity|].
  injection Hid as Hi Hid. injection Hem as He Hem.
  rewrite Hi, He, (IH l' Hid Hem). reflexivity.
Qed.

Lemma users_ok_by_columns (d d' : DB) :
  map User.id (users d') = map User.id (users d) ->
  map User.email (users d') = map User.email (users d) ->
  users_ok d' = users_ok d.
Proof.
  intros Hid Hem. unfold users_ok. rewrite Hid, Hem.
  rewrite (forallb_by_columns (fun k _ => 0 <? k) _ _ Hid Hem).
  rewrite (forallb_by_columns
             (fun k e => (k <=? 2147483647) && negb (Py.has_nul e)) _ _ Hid Hem).
  reflexivity.
Qed.

(** X4. The routes never add, remove, renumber or re-address a user: in a
    store that satisfies the constraints of the user table, after any run
    of requests the ids and the emails of the users are what they were, row
    by row, and the constraints still hold. *)
Theorem run_keeps_users
    (generate_password_hash : string -> string -> string)
    (check_password_hash : string -> string -> bool)
    (w : World) (rs : list (Route * Request)) :
  users_ok (db w) = true ->
  users_ok (db (run generate_password_hash check_password_hash w rs)) = true
  /\ map User.id
         (users (db (run generate_password_hash check_password_hash w rs)))
     = map User.id (users (db w))
  /\ map User.email
         (users (db (run generate_password_hash check_password_hash w rs)))
     = map User.email (users (db w)).
Proof.
  intros Hok.
  apply (run_keeps generate_password_hash check_password_hash
           (fun d => users_ok d = true
                     /\ map User.id (users d) = map User.id (users (db w))
                     /\ map User.email (users d) = map User.email (users (db w)))).
  - intros d u salt raw [Hd [Hid Hem]] Hin.
    assert (map User.email
              (users (update_user d
                 (User.set_password generate_password_hash u salt raw)))
            = map User.email (users d)) as Hem'
      by (apply (update_user_emails d u); auto).
    repeat split.
    + rewrite (users_ok_by_columns d); [exact Hd | apply update_user_ids | exact Hem'].
    + rewrite update_user_ids. exact Hid.
    + rewrite Hem'. exact Hem.
  - intros d ex c v H _.
    destruct (update_feedback_shape d ex c v) as [Hus _].
    rewrite (users_ok_same_users d _ Hus), Hus. exact H.
  - intros d t s r c v H.
    destruct (insert_feedback_shape d t s r c v) as [Hus _].
    rewrite (users_ok_same_users d _ Hus), Hus. exact H.
  - auto.
Qed.

Lemma run_keeps_users_witness :
  users_ok (db (run PlainHash.generate PlainHash.check Examples.fresh
     [(RLogin, Examples.post [("email", "alice@class.in")] 1);
      (RSetPassword, Examples.post [("password", "a"); ("confirm_password", "a")] 2);
      (RGiveFeedback, Examples.submit "2" "x" None 3)])) = true
  /\ map User.id (users (db (run PlainHash.generate PlainHash.check Examples.fresh
     [(RLogin, Examples.post [("email", "alice@class.in")] 1);
      (RSetPassword, Examples.post [("password", "a"); ("confirm_password", "a")] 2);
      (RGiveFeedback, Examples.submit "2" "x" None 3)])))
     = [1; 2]
  /\ map User.email (users (db (run PlainHash.generate PlainHash.check Examples.fresh
     [(RLogin, Examples.post [("email", "alice@class.in")] 1);
      (RSetPassword, Examples.post [("password", "a"); ("confirm_password", "a")] 2);
      (RGiveFeedback, Examples.submit "2" "x" None 3)])))
     = ["alice@class.in"; "bob@class.in"].
Proof.
  exact (run_keeps_users PlainHash.generate PlainHash.check Examples.fresh
     [(RLogin, Examples.post [("email", "alice@class.in")] 1);
      (RSetPassword, Examples.post [("password", "a"); ("confirm_password", "a")] 2);
      (RGiveFeedback, Examples.submit "2" "x" None 3)] eq_refl).
Defined.

Lemma forallb_same {A : Type} (p q : A -> bool) (l : list A) :
  (forall x, p x = q x) -> forallb p l = forallb q l.
Proof.
  intros H. induction l as [|x l IH]; simpl; [reflexivity|].
  rewrite H, IH. reflexivity.
Qed.

(** X5. Referential integrity is kept: in a store whose feedback rows all
    name users as sender and recipient, they still do after any run of
    requests. *)
Theorem run_keeps_references
    (generate_password_hash : string -> string -> string)
    (check_password_hash : string -> string -> bool)
    (w : World) (rs : list (Route * Request)) :
  references_ok (db w) = true ->
  references_ok (db (run generate_password_hash check_password_hash w rs)) = true.
Proof.
  apply (run_keeps generate_password_hash check_password_hash
           (fun d => references_ok d = true)).
  - intros d u salt raw Hd _. unfold references_ok in *.
    rewrite <- Hd. simpl feedbacks. apply forallb_same. intros f.
    rewrite !update_user_has_user. reflexivity.
  - intros d ex c v Hd _.
    destruct (update_feedback_shape d ex c v) as [Hus [_ Hfs]].
    unfold references_ok, has_user in *. rewrite Hus.
    destruct Hfs as [-> | ->]; [exact Hd|].
    rewrite forallb_forall in *. intros f' Hin.
    apply in_move_rewritten in Hin.
    destruct Hin as [[Hin _] | [y [Hin [_ ->]]]];
      [apply Hd; exact Hin | apply (Hd y Hin)].
  - intros d t s r c v Hd.
    destruct (insert_feedback_shape d t s r c v)
      as [Hus [[Hfs _] | [Hs [Hr [Hfs _]]]]];
      unfold references_ok, has_user in *; rewrite Hus, Hfs;
      [exact Hd|].
    rewrite forallb_app. simpl. rewrite Hs, Hr, andb_true_r. exact Hd.
Qed.

Lemma run_keeps_references_witness :
  references_ok
    (db (run PlainHash.generate PlainHash.check MoreExamples.busy
           [(RGiveFeedback, Examples.submit "2" "again" None 40);
            (RGiveFeedback, Examples.submit "7" "nobody" None 41);
            (RLogout, Examples.post [] 42)]))
  = true.
Proof.
  exact (run_keeps_references PlainHash.generate PlainHash.check
           MoreExamples.busy
           [(RGiveFeedback, Examples.submit "2" "again" None 40);
            (RGiveFeedback, Examples.submit "7" "nobody" None 41);
            (RLogout, Examples.post [] 42)]
           eq_refl).
Defined.

Lemma feedback_ids_snoc (l : list Feedback.t) (q : Z) (f : Feedback.t) :
  Feedback.id f = q + 1 ->
  distinct Z.eqb (map Feedback.id l) = true ->
  forallb (fun g => Feedback.id g <=? q) l = true ->
  distinct Z.eqb (map Feedback.id (l ++ [f])) = true
  /\ forallb (fun g => Feedback.id g <=? q + 1) (l ++ [f]) = true.
Proof.
  intros Hf. induction l as [|g l IH]; simpl; intros Hd Hb.
  - rewrite Hf, Z.leb_refl. auto.
  - apply andb_true_iff in Hd. destruct Hd as [Hg Hd].
    apply andb_true_iff in Hb. destruct Hb as [Hgq Hb].
    destruct (IH Hd Hb) as [IH1 IH2]. rewrite IH1, IH2.
    rewrite map_app, existsb_app. simpl.
    apply negb_true_iff in Hg. rewrite Hg, Hf. simpl.
    apply Z.leb_le in Hgq.
    replace (Feedback.id g =? q + 1) with false
      by (symmetry; apply Z.eqb_neq; lia).
    replace (Feedback.id g <=? q + 1) with true
      by (symmetry; apply Z.leb_le; lia).
    auto.
Qed.

Lemma distinct_NoDup (l : list Z) : distinct Z.eqb l = true <-> NoDup l.
Proof.
  induction l as [|k l IH]; simpl.
  - split; [constructor | reflexivity].
  - rewrite andb_true_iff, negb_true_iff, IH. split.
    + intros [Hk Hl]. constructor; [|exact Hl]. intros Hin.
      assert (existsb (Z.eqb k) l = true) as Hx
        by (apply existsb_exists; exists k; split;
            [exact Hin | apply Z.eqb_refl]).
      rewrite Hx in Hk. discriminate.
    + intros H. inversion H as [|? ? Hk Hl]; subst. split; [|exact Hl].
      destruct (existsb (Z.eqb k) l) eqn:E; [|reflexivity].
      apply existsb_exists in E. destruct E as [x [Hin Hx]].
      apply Z.eqb_eq in Hx. subst x. contradiction.
Qed.

Lemma filter_split_perm {A : Type} (q : A -> bool) (l : list A) :
  Permutation l (filter (fun x => negb (q x)) l ++ filter q l).
Proof.
  induction l as [|a l IH]; simpl; [reflexivity|].
  destruct (q a); simpl.
  - apply Permutation_cons_app. exact IH.
  - apply perm_skip. exact IH.
Qed.

Lemma move_rewritten_ids (hit : Feedback.t -> bool)
    (g : Feedback.t -> Feedback.t) (l : list Feedback.t) :
  (forall f, Feedback.id (g f) = Feedback.id f) ->
  Permutation (map Feedback.id l) (map Feedback.id (move_rewritten hit g l)).
Proof.
  intros Hg. unfold move_rewritten. rewrite map_app, map_map.
  replace (map (fun x => Feedback.id (g x)) (filter hit l))
    with (map Feedback.id (filter hit l))
    by (apply map_ext; intros f; symmetry; apply Hg).
  rewrite <- map_app. apply Permutation_map. apply filter_split_perm.
Qed.

(** X6. The primary key of the feedback table is kept: if the ids of the
    rows are distinct and none is beyond the sequence, this still holds
    after any run of requests; a new row never takes the id of an old
    one. *)
Theorem run_keeps_feedback_ids
    (generate_password_hash : string -> string -> string)
    (check_password_hash : string -> string -> bool)
    (w : World) (rs : list (Route * Request)) :
  feedback_ids_ok (db w) = true ->
  feedback_ids_ok (db (run generate_password_hash check_password_hash w rs)) = true.
Proof.
  apply (run_keeps generate_password_hash check_password_hash
           (fun d => feedback_ids_ok d = true)).
  - intros d u salt raw Hd _. exact Hd.
  - intros d ex c v Hd _.
    destruct (update_feedback_shape d ex c v) as [_ [Hseq Hfs]].
    unfold feedback_ids_ok in *. rewrite Hseq.
    destruct Hfs as [-> | ->]; [exact Hd|].
    apply andb_true_iff in Hd. destruct Hd as [Hdist Hb].
    apply andb_true_iff. split.
    + apply distinct_NoDup. apply distinct_NoDup in Hdist.
      apply (Permutation_NoDup
               (move_rewritten_ids
                  (fun f => Feedback.id f =? Feedback.id ex)
                  (fun f => Feedback.with_content_visible f c v)
                  (feedbacks d) (fun f => eq_refl))).
      exact Hdist.
    + rewrite forallb_forall in *. intros f' Hin.
      apply in_move_rewritten in Hin.
      destruct Hin as [[Hin _] | [y [Hin [_ ->]]]];
        [apply Hb; exact Hin | apply (Hb y Hin)].
  - intros d t s r c v Hd.
    unfold feedback_ids_ok in Hd. apply andb_true_iff in Hd.
    destruct Hd as [Hdist Hb].
    destruct (insert_feedback_shape d t s r c v)
      as [_ [[Hfs Hseq] | [_ [_ [Hfs Hseq]]]]];
      unfold feedback_ids_ok; rewrite Hfs.
    + rewrite Hdist. simpl. rewrite forallb_forall in *.
      intros f Hin. specialize (Hb f Hin).
      apply Z.leb_le in Hb. apply Z.leb_le.
      destruct Hseq as [-> | ->]; lia.
    + rewrite Hseq.
      destruct (feedback_ids_snoc (feedbacks d) (feedback_seq d)
                  (Feedback.mk (feedback_seq d + 1) s r c v t)
                  eq_refl Hdist Hb) as [H1 H2].
      rewrite H1, H2. reflexivity.
Qed.

Lemma run_keeps_feedback_ids_witness :
  feedback_ids_ok
    (db (run PlainHash.generate PlainHash.check MoreExamples.busy
           [(RGiveFeedback, Examples.submit "2" "again" None 40);
            (RGiveFeedback, Examples.submit "7" "nobody" None 41);
            (RGiveFeedback, Examples.submit "1" "self" None 42)]))
  = true.
Proof.
  exact (run_keeps_feedback_ids PlainHash.generate PlainHash.check
           MoreExamples.busy
           [(RGiveFeedback, Examples.submit "2" "again" None 40);
            (RGiveFeedback, Examples.submit "7" "nobody" None 41);
            (RGiveFeedback, Examples.submit "1" "self" None 42)]
           eq_refl).
Defined.

Lemma distinct_same_key {A K : Type} (eqb : K -> K -> bool) (key : A -> K)
    (eqb_true : forall a b, eqb a b = true <-> a = b)
    (l : list A) (x y : A) :
  distinct eqb (map key l) = true ->
  In x l -> In y l -> key x = key y -> x = y.
Proof.
  intros Hd Hx Hy Hk.
  pose proof (distinct_find eqb key eqb_true l x Hd Hx) as Fx.
  pose proof (distinct_find eqb key eqb_true l y Hd Hy) as Fy.
  rewrite Hk in Fx. congruence.
Qed.

(** X7. A successful POST to [/set-password] writes the hash of the
    submitted password into the row of the pending user, whether or not
    that row already held a hash, and into no other row: every other user
    is as before, no user is added or dropped, the feedback table is
    untouched, and the session names the user as logged in and nobody as
    pending. *)
Theorem set_password_writes_pending_user
    (generate_password_hash : string -> string -> string)
    (w : World) (rq : Request) (pid : Z) (user : User.t) (p : string) :
  users_ok (db w) = true ->
  pre_user_id (session w) = Some pid ->
  User_query_get (db w) pid = Some user ->
  method rq = POST ->
  form_get (form rq) "password" = Some p ->
  form_get (form rq) "confirm_password" = Some p ->
  p <> "" ->
  let res := set_password generate_password_hash w rq in
  snd res = flash_redirect "Password set! Logged in." "success" "dashboard"
  /\ session (fst res) = mkSession (Some pid) None
  /\ User_query_get (db (fst res)) pid
     = Some (User.mk pid (User.name user) (User.email user)
                     (Some (generate_password_hash (salt rq) p))
                     (User.created_at user))
  /\ (forall x, In x (users (db w)) -> x <> user -> In x (users (db (fst res))))
  /\ List.length (users (db (fst res))) = List.length (users (db w))
  /\ feedbacks (db (fst res)) = feedbacks (db w).
Proof.
  intros Hok Hpre Hget Hm Hp1 Hp2 Hp res.
  pose proof Hget as Hfind. apply find_some in Hfind.
  destruct Hfind as [Hin Hid]. apply Z.eqb_eq in Hid. subst pid.
  destruct (users_ok_get (db w) user Hok Hin) as [_ [_ Hnz]].
  assert (res = (mkWorld (update_user (db w)
                            (User.set_password generate_password_hash
                                               user (salt rq) p))
                         (mkSession (Some (User.id user)) None),
                 flash_redirect "Password set! Logged in." "success" "dashboard"))
    as E.
  { unfold res, set_password. cbv zeta.
    rewrite Hpre, Hnz, Hget, Hm, Hp1, Hp2. simpl.
    apply truthy_true_iff in Hp. rewrite Hp, String.eqb_refl. reflexivity. }
  rewrite E. simpl fst. simpl snd. simpl session.
  repeat split.
  - unfold User_query_get. simpl users. rewrite find_map_stable.
    + fold (User_query_get (db w) (User.id user)). rewrite Hget. simpl.
      rewrite Z.eqb_refl. reflexivity.
    + intros x _. simpl. destruct (User.id x =? User.id user) eqn:Ex; simpl.
      * apply Z.eqb_refl.
      * exact Ex.
  - intros x Hx Hne. simpl. apply in_map_iff. exists x. split; [|exact Hx].
    destruct (User.id x =? User.id user) eqn:Ex; [|reflexivity].
    apply Z.eqb_eq in Ex. exfalso. apply Hne.
    apply (users_ok_same_id (db w) user x Hok Hin Hx Ex).
  - simpl. apply length_map.
Qed.

Lemma set_password_writes_pending_user_witness :
  User_query_get
    (db (fst (set_password PlainHash.generate
                (mkWorld (db MoreExamples.with_password) (mkSession None (Some 1)))
                (Examples.post [("password", "new"); ("confirm_password", "new")] 5))))
    1
  = Some (User.mk 1 "Alice" "alice@class.in" (Some "plain$new") 0).
Proof.
  assert ("new" <> "") as Hn by discriminate.
  exact (proj1 (proj2 (proj2
    (set_password_writes_pending_user PlainHash.generate
       (mkWorld (db MoreExamples.with_password) (mkSession None (Some 1)))
       (Examples.post [("password", "new"); ("confirm_password", "new")] 5)
       1 MoreExamples.alice_set "new"
       eq_refl eq_refl eq_refl eq_refl eq_refl eq_refl Hn)))).
Defined.

(** X8. After [/logout] nobody is logged in: the store is untouched, a
    pending first login stays pending, and every route that needs a user
    answers the next request with the redirect to the login page, changing
    nothing. *)
Theorem logout_ends_session
    (num : Type) (height : num) (minus : num -> Z -> num)
    (below : num -> Z -> bool) (strftime : Z -> string)
    (w : World) (rq rq' : Request) :
  let w' := fst (logout w rq) in
  db w' = db w
  /\ pre_user_id (session w') = pre_user_id (session w)
  /\ current_user w' = None
  /\ dashboard w' rq' = (w', NotAuthenticated)
  /\ give_feedback w' rq' = (w', NotAuthenticated)
  /\ view_feedback w' rq' = (w', NotAuthenticated)
  /\ download_given_pdf num height minus below strftime w' = PdfLogin
  /\ download_received_pdf num height minus below strftime w' = PdfLogin.
Proof.
  repeat split.
Qed.

(** X9. A login that passes the check binds the session to that user: in
    a store that satisfies the constraints of the user table, a POST to
    [/login] with the email of a user and a password that passes
    [check_password] is answered with the welcome message; [current_user]
    then is that user, and [/dashboard] renders for that user. *)
Theorem login_then_dashboard
    (check_password_hash : string -> string -> bool)
    (w : World) (rq rq' : Request) (user : User.t) :
  users_ok (db w) = true ->
  method rq = POST ->
  User_query_by_email (db w)
    (Py.lower (Py.strip (form_get_default (form rq) "email" ""))) = Some user ->
  User.check_password check_password_hash user
    (form_get_default (form rq) "password" "") = true ->
  let res := login check_password_hash w rq in
  snd res = flash_redirect ("Welcome, " ++ User.name user ++ "!")
                           "success" "dashboard"
  /\ current_user (fst res) = Some user
  /\ dashboard (fst res) rq' = (fst res, Render "dashboard.html" (Some user)).
Proof.
  intros Hok Hm He Hc res.
  destruct (check_password_true _ _ _ Hc) as [h [Hh [Ht _]]].
  pose proof He as Hin. apply find_some in Hin. destruct Hin as [Hin Hem].
  apply String.eqb_eq in Hem.
  destruct (users_ok_get (db w) user Hok Hin) as [Hget [_ Hnz]].
  pose proof (users_ok_email (db w) user Hok Hin) as Hnul.
  rewrite Hem in Hnul.
  assert (res = (mkWorld (db w)
                         (mkSession (Some (User.id user))
                                    (pre_user_id (session w))),
                 flash_redirect ("Welcome, " ++ User.name user ++ "!")
                                "success" "dashboard")) as E.
  { unfold res, login. rewrite Hm. cbv zeta. rewrite Hnul, He, Hh. simpl.
    rewrite Ht. simpl. rewrite Hc. reflexivity. }
  assert (current_user (fst res) = Some user) as Hcur.
  { rewrite E. unfold current_user. simpl. rewrite Hnz. exact Hget. }
  repeat split.
  - rewrite E. reflexivity.
  - exact Hcur.
  - unfold dashboard. rewrite Hcur. reflexivity.
Qed.

Lemma login_then_dashboard_witness :
  current_user
    (fst (login PlainHash.check MoreExamples.with_password
            (Examples.post [("email", "alice@class.in"); ("password", "pw1")] 5)))
  = Some MoreExamples.alice_set.
Proof.
  exact (proj1 (proj2
    (login_then_dashboard PlainHash.check MoreExamples.with_password
       (Examples.post [("email", "alice@class.in"); ("password", "pw1")] 5)
       (Examples.post [] 6) MoreExamples.alice_set
       eq_refl eq_refl eq_refl eq_refl))).
Defined.

(** ** Beyond the claims: the upsert *)

(** X10. An update touches one row only: in a store with distinct
    feedback ids and one row per pair at most, a submission (content not
    blank, without NUL) that finds the row of the pair rewrites that row
    and leaves every other row, the number of rows and the sequence as
    they were. *)
Theorem give_feedback_update_one_row
    (w : World) (rq : Request) (user : User.t) (r : Z) (existing : Feedback.t) :
  feedback_ids_ok (db w) = true ->
  one_per_pair (feedbacks (db w)) = true ->
  current_user w = Some user ->
  method rq = POST ->
  Py.int (form_get (form rq) "recipient_id") = inl r ->
  Py.strip (form_get_default (form rq) "content" "") <> "" ->
  Py.has_nul (Py.strip (form_get_default (form rq) "content" "")) = false ->
  Feedback_query_by_pair (db w) (User.id user) r = Some existing ->
  let w' := fst (give_feedback w rq) in
  let updated :=
    Feedback.with_content_visible existing
      (Py.strip (form_get_default (form rq) "content" ""))
      (Py.truthy_opt (form_get (form rq) "visible")) in
  In updated (feedbacks (db w'))
  /\ (forall f, In f (feedbacks (db w)) -> f <> existing ->
                In f (feedbacks (db w')))
  /\ (forall f, In f (feedbacks (db w')) ->
                f = updated \/ (In f (feedbacks (db w)) /\ f <> existing))
  /\ List.length (feedbacks (db w')) = List.length (feedbacks (db w))
  /\ feedback_seq (db w') = feedback_seq (db w).
Proof.
  intros Hok _ Hu Hm Hr Hc Hnul He w' updated.
  unfold feedback_ids_ok in Hok. apply andb_true_iff in Hok.
  destruct Hok as [Hdist _].
  pose proof He as Hin. apply find_some in Hin. destruct Hin as [Hin _].
  assert (forall f, In f (feedbacks (db w)) ->
                    (Feedback.id f =? Feedback.id existing) = true ->
                    f = existing) as Hsame.
  { intros f Hf Hid. apply Z.eqb_eq in Hid.
    apply (distinct_same_key Z.eqb Feedback.id Z.eqb_eq
             (feedbacks (db w)) f existing Hdist Hf Hin Hid). }
  destruct (give_feedback_update w rq user r existing Hu Hm Hr Hc Hnul He)
    as [fs [Hg Hfs]].
  cbv zeta in Hfs. unfold w'. rewrite Hg. simpl.
  destruct Hfs as [[-> [Hsc Hsv]] | ->].
  - assert (updated = existing) as Hup.
    { unfold updated. destruct existing as [i a b c v t].
      simpl in Hsc, Hsv. subst. reflexivity. }
    rewrite Hup. repeat split; auto.
    intros f Hf.
    destruct (Feedback.id f =? Feedback.id existing) eqn:Ef.
    + left. apply Hsame; assumption.
    + right. split; [exact Hf|]. intros ->. rewrite Z.eqb_refl in Ef.
      discriminate.
  - repeat split.
    + apply in_move_rewritten. right. exists existing.
      rewrite Z.eqb_refl. auto.
    + intros f Hf Hne. apply in_move_rewritten. left. split; [exact Hf|].
      destruct (Feedback.id f =? Feedback.id existing) eqn:Ef; [|reflexivity].
      exfalso. apply Hne. apply Hsame; assumption.
    + intros f Hf. apply in_move_rewritten in Hf.
      destruct Hf as [[Hf Hid] | [y [Hy [Hid ->]]]].
      * right. split; [exact Hf|]. intros ->. rewrite Z.eqb_refl in Hid.
        discriminate.
      * left. rewrite (Hsame y Hy Hid). reflexivity.
    + apply length_move_rewritten.
Qed.

Lemma give_feedback_update_one_row_witness :
  In (Feedback.mk 2 2 1 "to alice" false 20)
     (feedbacks (db (fst (give_feedback MoreExamples.busy
                            (Examples.submit "2" "again" None 40))))).
Proof.
  assert ("again" <> "") as Hc by discriminate.
  assert (Feedback.mk 2 2 1 "to alice" false 20
          <> Feedback.mk 1 1 2 "to bob" true 10) as Hne by discriminate.
  exact (proj1 (proj2
    (give_feedback_update_one_row MoreExamples.busy
       (Examples.submit "2" "again" None 40) Examples.alice 2
       (Feedback.mk 1 1 2 "to bob" true 10)
       eq_refl eq_refl eq_refl eq_refl eq_refl Hc eq_refl eq_refl))
    (Feedback.mk 2 2 1 "to alice" false 20)
    (or_intror (or_introl eq_refl)) Hne).
Defined.

Lemma int_error_kind (x : option string) (e : Py.exn) :
  Py.int x = inr e ->
  (x = None /\ e = Py.TypeError) \/ (x <> None /\ e = Py.ValueError).
Proof.
  destruct x as [s|].
  - intros H. right. split; [discriminate|].
    pose (body := fun (sign : Z) (l : list ascii) =>
            match Py.parse_digits false 0 l with
            | Some n =>
                if Nat.leb (Py.count_digits l) Py.int_max_str_digits
                then @inl Z Py.exn (sign * n)
                else inr Py.ValueError
            | None => inr Py.ValueError
            end).
    assert (forall sign l, body sign l = inr e -> e = Py.ValueError) as Hbody.
    { intros sign l. unfold body.
      destruct (Py.parse_digits false 0 l) as [n|].
      - destruct (Nat.leb _ _); intros H0;
          [discriminate H0 | injection H0 as <-; reflexivity].
      - intros H0. injection H0 as <-. reflexivity. }
    change (match Py.strip_int_chars (list_ascii_of_string s) with
            | "+"%char :: l => body 1 l
            | "-"%char :: l => body (-1) l
            | l => body 1 l
            end = inr e) in H.
    clearbody body.
    destruct (Py.strip_int_chars (list_ascii_of_string s)) as [|c l].
    + apply (Hbody 1 []). exact H.
    + destruct c as [[] [] [] [] [] [] [] []];
        match type of H with
        | body ?a ?b = _ => apply (Hbody a b); exact H
        end.
  - intros H. left. split; [reflexivity|]. simpl in H. congruence.
Qed.

(** X11. The recipient id is read first: a POST to [/give-feedback] by a
    logged-in user whose recipient id is missing ([TypeError]) or is not a
    decimal number ([ValueError]) ends in that exception and leaves the
    world as it was, whatever the content; blank content is then not
    answered with the empty-content message. *)
Theorem give_feedback_recipient_id_first
    (w : World) (rq : Request) (user : User.t) (e : Py.exn) :
  current_user w = Some user ->
  method rq = POST ->
  Py.int (form_get (form rq) "recipient_id") = inr e ->
  give_feedback w rq = (w, Raise e)
  /\ snd (give_feedback w rq) <> EmptyContent
  /\ ((form_get (form rq) "recipient_id" = None /\ e = Py.TypeError)
      \/ (form_get (form rq) "recipient_id" <> None /\ e = Py.ValueError)).
Proof.
  intros Hu Hm He.
  assert (give_feedback w rq = (w, Raise e)) as E
    by (unfold give_feedback; rewrite Hu, Hm, He; reflexivity).
  rewrite E. repeat split; [discriminate|].
  apply int_error_kind. exact He.
Qed.

Lemma give_feedback_recipient_id_first_witness :
  give_feedback Examples.alice_in (Examples.submit "bob" "" None 5)
  = (Examples.alice_in, Raise Py.ValueError).
Proof.
  exact (proj1 (give_feedback_recipient_id_first Examples.alice_in
                  (Examples.submit "bob" "" None 5) Examples.alice
                  Py.ValueError eq_refl eq_refl eq_refl)).
Defined.

(** X12. Whatever the stored flag was, the flag of the pair's row after a
    submission that is written (content not blank and without NUL, to a
    recipient that is a user) is true exactly when the form has a
    [visible] field that is not empty: any text counts, so a field that
    reads false or 0 stores true. *)
Theorem give_feedback_visible_flag
    (w : World) (rq : Request) (user : User.t) (r : Z) :
  users_ok (db w) = true ->
  current_user w = Some user ->
  method rq = POST ->
  Py.int (form_get (form rq) "recipient_id") = inl r ->
  Py.strip (form_get_default (form rq) "content" "") <> "" ->
  Py.has_nul (Py.strip (form_get_default (form rq) "content" "")) = false ->
  has_user (db w) r = true ->
  one_per_pair (feedbacks (db w)) = true ->
  forall f,
    In f (feedbacks (db (fst (give_feedback w rq)))) ->
    same_pair (User.id user) r f = true ->
    (Feedback.visible f = true <->
     exists x, form_get (form rq) "visible" = Some x /\ x <> "").
Proof.
  intros Hok Hu Hm Hr Hc Hnul Hru Hinv f Hin Hp.
  pose proof (users_ok_in_int32 _ _ Hok (current_user_has_user w user Hu))
    as Hs32.
  pose proof (users_ok_in_int32 _ _ Hok Hru) as Hr32.
  destruct (give_feedback_single_row w rq user r
              Hu Hm Hr Hc Hnul Hs32 Hr32 Hru Hinv)
    as [g [Hg [_ [Hv _]]]].
  assert (In f (filter (same_pair (User.id user) r)
                       (feedbacks (db (fst (give_feedback w rq))))))
    as Hf by (apply filter_In; split; assumption).
  rewrite Hg in Hf. destruct Hf as [<- | []]. rewrite Hv.
  destruct (form_get (form rq) "visible") as [x|]; simpl.
  - rewrite truthy_true_iff. split.
    + intros Hx. exists x. auto.
    + intros [y [Hy Hne]]. congruence.
  - split; [discriminate|]. intros [y [Hy _]]. discriminate.
Qed.

Lemma give_feedback_visible_flag_witness :
  Feedback.visible (Feedback.mk 1 1 2 "x" true 10) = true <->
  exists x,
    form_get (form (Examples.submit "2" "x" (Some "false") 10)) "visible" = Some x
    /\ x <> "".
Proof.
  assert ("x" <> "") as Hc by discriminate.
  exact (give_feedback_visible_flag Examples.alice_in
           (Examples.submit "2" "x" (Some "false") 10) Examples.alice 2
           eq_refl eq_refl eq_refl eq_refl Hc eq_refl eq_refl eq_refl
           (Feedback.mk 1 1 2 "x" true 10) (or_introl eq_refl) eq_refl).
Defined.

(** ** Beyond the claims: the page of [/give-feedback] *)

Lemma insert_by_name_perm (name_le : string -> string -> bool)
    (u : User.t) (l : list User.t) :
  Permutation (u :: l) (insert_by_name name_le u l).
Proof.
  induction l as [|x l IH]; simpl; [reflexivity|].
  destruct (name_le (User.name u) (User.name x)); [reflexivity|].
  rewrite perm_swap. apply perm_skip. exact IH.
Qed.

Lemma order_by_name_perm (name_le : string -> string -> bool)
    (l : list User.t) :
  Permutation l (order_by_name name_le l).
Proof.
  induction l as [|u l IH]; simpl; [reflexivity|].
  rewrite <- insert_by_name_perm. apply perm_skip. exact IH.
Qed.

(** X13. The page of [/give-feedback] offers as recipients exactly the
    users other than the one logged in, whatever the order of the store on
    names: the logged-in user is never on the list, and nobody else is left
    out. *)
Theorem give_feedback_page_recipients
    (name_le : string -> string -> bool) (w : World) (user : User.t) :
  current_user w = Some user ->
  exists page,
    give_feedback_page name_le w = Some page
    /\ page_user page = user
    /\ ~ In user (page_recipients page)
    /\ (forall u, In u (page_recipients page) <->
                  In u (users (db w)) /\ User.id u <> User.id user).
Proof.
  intros Hu. unfold give_feedback_page. rewrite Hu.
  eexists. split; [reflexivity|]. simpl.
  assert (forall u, In u (recipients name_le (db w) user) <->
                    In u (users (db w)) /\ User.id u <> User.id user) as H.
  { intros u. unfold recipients. rewrite filter_In, negb_true_iff, Z.eqb_neq.
    split; intros [Hin Hne]; (split; [|exact Hne]).
    - apply (Permutation_in u (Permutation_sym
               (order_by_name_perm name_le (users (db w))))). exact Hin.
    - apply (Permutation_in u (order_by_name_perm name_le (users (db w)))).
      exact Hin. }
  split; [reflexivity|]. split; [|exact H].
  intros Hin. apply H in Hin. destruct Hin as [_ Hne]. apply Hne. reflexivity.
Qed.

Lemma give_feedback_page_recipients_witness :
  exists page,
    give_feedback_page String.leb Examples.alice_in = Some page
    /\ page_user page = Examples.alice
    /\ ~ In Examples.alice (page_recipients page)
    /\ (forall u, In u (page_recipients page) <->
                  In u [Examples.alice; Examples.bob] /\ User.id u <> 1).
Proof.
  exact (give_feedback_page_recipients String.leb Examples.alice_in
           Examples.alice eq_refl).
Defined.

Lemma dict_get_set {V : Type} (d : Dict V) (k k' : Z) (v : V) :
  dict_get (dict_set d k v) k'
  = if k =? k' then Some v else dict_get d k'.
Proof.
  induction d as [|[k0 v0] d IH]; simpl.
  - reflexivity.
  - destruct (k0 =? k) eqn:E0; simpl.
    + apply Z.eqb_eq in E0. subst k0.
      destruct (k =? k'); reflexivity.
    + destruct (k0 =? k') eqn:E1.
      * apply Z.eqb_eq in E1. subst k0. rewrite Z.eqb_sym, E0. reflexivity.
      * exact IH.
Qed.

Lemma find_snoc {A : Type} (p : A -> bool) (l : list A) (x : A) :
  find p (l ++ [x])
  = match find p l with
    | Some y => Some y
    | None => if p x then Some x else None
    end.
Proof.
  induction l as [|y l IH]; simpl; [reflexivity|].
  destruct (p y); [reflexivity | exact IH].
Qed.

Lemma find_filter {A : Type} (p q : A -> bool) (l : list A) :
  find p (filter q l) = find (fun x => q x && p x) l.
Proof.
  induction l as [|x l IH]; simpl; [reflexivity|].
  destruct (q x); simpl; [|exact IH].
  destruct (p x); [reflexivity | exact IH].
Qed.

(** The dict comprehension keeps, for each recipient, the last row. *)
Lemma feedback_map_get (fs : list Feedback.t) (r : Z) :
  dict_get (feedback_map fs) r
  = find_last (fun f => Feedback.recipient_id f =? r) fs.
Proof.
  unfold feedback_map, find_last.
  assert (forall d0,
            dict_get (fold_left (fun d f => dict_set d (Feedback.recipient_id f) f)
                                fs d0) r
            = match find (fun f => Feedback.recipient_id f =? r) (rev fs) with
              | Some f => Some f
              | None => dict_get d0 r
              end) as H.
  { induction fs as [|f fs IH]; intros d0; simpl; [reflexivity|].
    rewrite IH, find_snoc, dict_get_set.
    destruct (find _ (rev fs)); [reflexivity|].
    destruct (Feedback.recipient_id f =? r); reflexivity. }
  rewrite H. destruct (find _ (rev fs)); reflexivity.
Qed.

Lemma feedback_map_last (d : DB) (user : User.t) (r : Z) :
  dict_get (feedback_map (given_feedbacks d user)) r
  = find_last (same_pair (User.id user) r) (feedbacks d).
Proof.
  rewrite feedback_map_get. unfold find_last, given_feedbacks.
  rewrite <- filter_rev, find_filter. reflexivity.
Qed.

Lemma feedback_map_by_pair (d : DB) (user : User.t) (r : Z) :
  one_per_pair (feedbacks d) = true ->
  dict_get (feedback_map (given_feedbacks d user)) r
  = Feedback_query_by_pair d (User.id user) r.
Proof.
  intros Hinv. rewrite feedback_map_last.
  unfold find_last, Feedback_query_by_pair.
  rewrite !find_hd_filter, filter_rev.
  pose proof (proj1 (one_per_pair_count (feedbacks d)) Hinv (User.id user) r)
    as Hc.
  unfold count_pair in Hc.
  destruct (filter (same_pair (User.id user) r) (feedbacks d)) as [|x [|y l]];
    simpl in *; try reflexivity. lia.
Qed.

(** X14. In a store with one row per pair at most, the page holds for each
    recipient the one row the user sent to that recipient, which is the
    row a submission to that recipient would find and rewrite; it holds
    nothing for a recipient without such a row. *)
Theorem give_feedback_page_map (d : DB) (user : User.t) (r : Z) :
  one_per_pair (feedbacks d) = true ->
  dict_get (feedback_map (given_feedbacks d user)) r
  = Feedback_query_by_pair d (User.id user) r.
Proof.
  apply feedback_map_by_pair.
Qed.

Lemma give_feedback_page_map_witness :
  dict_get (feedback_map (given_feedbacks (db MoreExamples.busy) Examples.alice)) 2
  = Feedback_query_by_pair (db MoreExamples.busy) 1 2.
Proof.
  exact (give_feedback_page_map (db MoreExamples.busy) Examples.alice 2 eq_refl).
Defined.





(** ** Beyond the claims: the start-up configuration *)

Lemma startswith_split (s p : string) :
  Config.startswith s p = true ->
  s = p ++ Config.drop (String.length p) s.
Proof.
  revert s. induction p as [|c p IH]; intros s; simpl.
  - reflexivity.
  - destruct s as [|d s]; [discriminate|].
    intros H. apply andb_true_iff in H. destruct H as [Hc Hp].
    apply Ascii.eqb_eq in Hc. subst d. rewrite <- (IH s Hp). reflexivity.
Qed.

Lemma database_uri_postgres (rest : string) :
  Config.database_uri (Some ("postgres://" ++ rest))
  = Some ("postgresql://" ++ rest).
Proof. reflexivity. Qed.

Lemma database_uri_other (url : string) :
  url <> "" ->
  Config.startswith url "postgres://" = false ->
  Config.database_uri (Some url) = Some url.
Proof.
  intros Hne Hs. unfold Config.database_uri.
  apply truthy_true_iff in Hne. rewrite Hne, Hs. reflexivity.
Qed.

(** X17. The store's URL is taken from the environment with one repair:
    without the variable, or with an empty one, the start-up fails; a URL
    with the scheme [postgres://] gets the scheme [postgresql://] and keeps
    all that follows it, even a later [postgres://]; any other URL is
    taken as it is. *)
Theorem database_uri_cases :
  Config.database_uri None = None
  /\ Config.database_uri (Some "") = None
  /\ (forall rest,
        Config.database_uri (Some ("postgres://" ++ rest))
        = Some ("postgresql://" ++ rest))
  /\ (forall url,
        url <> "" ->
        Config.startswith url "postgres://" = false ->
        Config.database_uri (Some url) = Some url).
Proof.
  split; [reflexivity|]. split; [reflexivity|].
  split; [exact database_uri_postgres | exact database_uri_other].
Qed.

(** X18. A URL the start-up accepts is never empty and never has the
    scheme [postgres://], and the repair is done once and for all: applied
    to its own result it changes nothing. *)
Theorem database_uri_repaired (env : option string) (uri : string) :
  Config.database_uri env = Some uri ->
  uri <> ""
  /\ Config.startswith uri "postgres://" = false
  /\ Config.database_uri (Some uri) = Some uri.
Proof.
  unfold Config.database_uri at 1. destruct env as [url|]; [|discriminate].
  destruct (Py.truthy url) eqn:Et; cbn [negb]; [|discriminate].
  destruct (Config.startswith url "postgres://") eqn:Es.
  - rewrite (startswith_split url "postgres://" Es).
    set (rest := Config.drop (String.length "postgres://") url).
    change (Config.replace_first ("postgres://" ++ rest)
                                 "postgres://" "postgresql://")
      with ("postgresql://" ++ rest).
    intros [= <-].
    split; [discriminate | split; reflexivity].
  - intros [= ->].
    apply truthy_true_iff in Et. split; [exact Et | split; [exact Es|]].
    apply database_uri_other; assumption.
Qed.

Lemma database_uri_repaired_witness :
  "postgresql://u:p@host:5432/db" <> ""
  /\ Config.startswith "postgresql://u:p@host:5432/db" "postgres://" = false
  /\ Config.database_uri (Some "postgresql://u:p@host:5432/db")
     = Some "postgresql://u:p@host:5432/db".
Proof.
  exact (database_uri_repaired (Some "postgres://u:p@host:5432/db")
           "postgresql://u:p@host:5432/db" eq_refl).
Defined.

Lemma database_uri_cases_witness :
  Config.database_uri (Some "sqlite:///class.db") = Some "sqlite:///class.db".
Proof.
  assert ("sqlite:///class.db" <> "") as Hne by discriminate.
  exact (proj2 (proj2 (proj2 database_uri_cases))
               "sqlite:///class.db" Hne eq_refl).
Defined.

(** ** Beyond the claims: the maintenance route *)

Lemma add_sridevi_final_cases (w : World) (new_id t : Z) :
  (exists user,
     User_query_by_email (db w) sridevi_email = Some user
     /\ add_sridevi_final w new_id t
        = (w, AlreadyExists (User.id user) (User.name user)))
  \/ (User_query_by_email (db w) sridevi_email = None
      /\ has_user (db w) new_id = true
      /\ add_sridevi_final w new_id t = (w, AdminRaise Py.IntegrityError))
  \/ (User_query_by_email (db w) sridevi_email = None
      /\ has_user (db w) new_id = false
      /\ add_sridevi_final w new_id t
         = (mkWorld (mkDB (users (db w)
                           ++ [User.mk new_id sridevi_name sridevi_email None t])
                          (feedbacks (db w)) (feedback_seq (db w)))
                    (session w),
            Added new_id sridevi_name)).
Proof.
  unfold add_sridevi_final.
  destruct (User_query_by_email (db w) sridevi_email) as [user|].
  - left. exists user. auto.
  - right. cbv zeta. destruct (has_user (db w) new_id); auto.
Qed.

Lemma added_user_found (w : World) (new_id t : Z) :
  User_query_by_email (db w) sridevi_email = None ->
  has_user (db w) new_id = false ->
  let d' := mkDB (users (db w)
                  ++ [User.mk new_id sridevi_name sridevi_email None t])
                 (feedbacks (db w)) (feedback_seq (db w)) in
  User_query_by_email d' sridevi_email
  = Some (User.mk new_id sridevi_name sridevi_email None t)
  /\ User_query_get d' new_id
     = Some (User.mk new_id sridevi_name sridevi_email None t).
Proof.
  intros He Hn d'. unfold User_query_by_email, User_query_get, d' in *.
  simpl users. rewrite !find_snoc. rewrite He. simpl.
  rewrite Z.eqb_refl.
  unfold has_user in Hn.
  destruct (find (fun u => User.id u =? new_id) (users (db w))) as [u|] eqn:E.
  - apply find_some in E. destruct E as [Hin Hid].
    assert (existsb (fun u => User.id u =? new_id) (users (db w)) = true) as Hx
      by (apply existsb_exists; exists u; auto).
    rewrite Hx in Hn. discriminate.
  - auto.
Qed.

(** X19. [/add-sridevi-final] adds the user once: a call either finds a
    user of that email and changes nothing, or fails on the primary key
    and changes nothing, or appends the user, with no credential; after a
    call that added the user every further call, whatever id and time it is
    given, finds that user and changes nothing.  No session is needed and
    none is touched. *)
Theorem add_sridevi_final_once (w : World) (new_id t new_id' t' : Z) :
  let res := add_sridevi_final w new_id t in
  session (fst res) = session w
  /\ feedbacks (db (fst res)) = feedbacks (db w)
  /\ ((fst res = w
       /\ ((exists uid name, snd res = AlreadyExists uid name)
           \/ snd res = AdminRaise Py.IntegrityError))
      \/ (snd res = Added new_id sridevi_name
          /\ users (db (fst res))
             = (users (db w)
                ++ [User.mk new_id sridevi_name sridevi_email None t])%list
          /\ add_sridevi_final (fst res) new_id' t'
             = (fst res, AlreadyExists new_id sridevi_name))).
Proof.
  intros res. unfold res.
  destruct (add_sridevi_final_cases w new_id t)
    as [[user [_ ->]] | [[_ [_ ->]] | [He [Hn ->]]]]; simpl.
  - repeat split. left. split; [reflexivity|]. left. eauto.
  - repeat split. left. split; [reflexivity|]. right. reflexivity.
  - repeat split. right. repeat split.
    destruct (added_user_found w new_id t He Hn) as [Hfound _].
    unfold add_sridevi_final. simpl db. rewrite Hfound. reflexivity.
Qed.

(** X20. The added user is anybody's to claim: once the route has added
    the user (with an id that is not 0), a POST of that email to [/login]
    and then a POST of any password that is not empty, twice, to
    [/set-password] logs the sender of the requests in as that user and
    stores the hash of that password. *)
Theorem add_sridevi_final_then_claim
    (generate_password_hash : string -> string -> string)
    (check_password_hash : string -> string -> bool)
    (w : World) (new_id t : Z) (rq1 rq2 : Request) (p : string) :
  snd (add_sridevi_final w new_id t) = Added new_id sridevi_name ->
  new_id <> 0 ->
  method rq1 = POST ->
  Py.lower (Py.strip (form_get_default (form rq1) "email" "")) = sridevi_email ->
  method rq2 = POST ->
  form_get (form rq2) "password" = Some p ->
  form_get (form rq2) "confirm_password" = Some p ->
  p <> "" ->
  let w1 := fst (add_sridevi_final w new_id t) in
  let r1 := login check_password_hash w1 rq1 in
  let r2 := set_password generate_password_hash (fst r1) rq2 in
  snd r1 = Redirect "set_password" None
  /\ snd r2 = flash_redirect "Password set! Logged in." "success" "dashboard"
  /\ user_id (session (fst r2)) = Some new_id
  /\ User_query_get (db (fst r2)) new_id
     = Some (User.mk new_id sridevi_name sridevi_email
                     (Some (generate_password_hash (salt rq2) p)) t).
Proof.
  intros Hadd Hnz Hm1 Hemail Hm2 Hp1 Hp2 Hp w1 r1 r2.
  destruct (add_sridevi_final_cases w new_id t)
    as [[user [_ E]] | [[_ [_ E]] | [He [Hn E]]]];
    rewrite E in Hadd; try discriminate Hadd.
  destruct (added_user_found w new_id t He Hn) as [Hby Hget].
  cbv zeta in Hby, Hget.
  assert (r1 = (mkWorld (db w1) (mkSession (user_id (session w)) (Some new_id)),
                Redirect "set_password" None)) as E1.
  { unfold r1, login. rewrite Hm1. cbv zeta. rewrite Hemail.
    unfold w1. rewrite E. simpl fst. simpl db. rewrite Hby. reflexivity. }
  assert (r2 = (mkWorld (update_user (db w1)
                           (User.mk new_id sridevi_name sridevi_email
                              (Some (generate_password_hash (salt rq2) p)) t))
                        (mkSession (Some new_id) None),
                flash_redirect "Password set! Logged in." "success" "dashboard"))
    as E2.
  { unfold r2, set_password. rewrite E1. cbv zeta.
    cbn [fst snd session pre_user_id db].
    apply Z.eqb_neq in Hnz. rewrite Hnz.
    unfold w1. rewrite E. cbn [fst db]. rewrite Hget, Hm2, Hp1, Hp2.
    apply truthy_true_iff in Hp. cbn [option_string_eqb].
    rewrite Hp, String.eqb_refl. reflexivity. }
  rewrite E1, E2. simpl fst. simpl snd. repeat split.
  unfold User_query_get. simpl users. rewrite find_map_stable.
  - unfold w1. rewrite E. simpl fst. simpl db.
    fold (User_query_get
            (mkDB (users (db w)
                   ++ [User.mk new_id sridevi_name sridevi_email None t])
                  (feedbacks (db w)) (feedback_seq (db w))) new_id).
    rewrite Hget. simpl. rewrite Z.eqb_refl. reflexivity.
  - intros x _. simpl. destruct (User.id x =? new_id) eqn:Ex; simpl.
    + apply Z.eqb_refl.
    + exact Ex.
Qed.

Lemma add_sridevi_final_then_claim_witness :
  user_id (session (fst (set_password PlainHash.generate
    (fst (login PlainHash.check (fst (add_sridevi_final Examples.fresh 3 50))
            (Examples.post [("email", "Sridevi-AID@saranathan.ac.in")] 51)))
    (Examples.post [("password", "mine"); ("confirm_password", "mine")] 52))))
  = Some 3.
Proof.
  assert ("mine" <> "") as Hp by discriminate.
  assert (3 <> 0) as Hnz by discriminate.
  exact (proj1 (proj2 (proj2
    (add_sridevi_final_then_claim PlainHash.generate PlainHash.check
       Examples.fresh 3 50
       (Examples.post [("email", "Sridevi-AID@saranathan.ac.in")] 51)
       (Examples.post [("password", "mine"); ("confirm_password", "mine")] 52)
       "mine" eq_refl Hnz eq_refl eq_refl eq_refl eq_refl eq_refl Hp)))).
Defined.

(** ** Beyond the claims: the PDF exports *)


Section PdfFacts.

Variable num : Type.
Variable height : num.
Variable minus : num -> Z -> num.
Variable below : num -> Z -> bool.
Variable strftime : Z -> string.

Lemma drawn_texts_app (a b : list (CanvasOp num)) :
  drawn_texts num (a ++ b) = (drawn_texts num a ++ drawn_texts num b)%list.
Proof.
  induction a as [|op a IH]; simpl; [reflexivity|].
  destruct op; simpl; rewrite IH; reflexivity.
Qed.

Lemma drawn_heights_app (a b : list (CanvasOp num)) :
  drawn_heights num (a ++ b)
  = (drawn_heights num a ++ drawn_heights num b)%list.
Proof.
  induction a as [|op a IH]; simpl; [reflexivity|].
  destruct op; simpl; rewrite IH; reflexivity.
Qed.

Lemma draw_line_drawn (y : num) (line : string) :
  drawn_texts num (fst (draw_line num height minus below y line)) = [line]
  /\ drawn_heights num (fst (draw_line num height minus below y line)) = [y]
  /\ (below y 50 = false -> below (minus height 50) 50 = false ->
      below (snd (draw_line num height minus below y line)) 50 = false).
Proof.
  unfold draw_line. cbv zeta.
  destruct (below (minus y 20) 50) eqn:E; simpl; auto.
Qed.

Lemma received_loop_texts (d : DB) (y : num) (l : list Feedback.t) :
  drawn_texts num (received_loop num height minus below strftime d y l)
  = map (fun f => received_line strftime
                    (User_query_get d (Feedback.sender_id f)) f) l.
Proof.
  revert y. induction l as [|f l IH]; intros y; simpl; [reflexivity|].
  destruct (draw_line_drawn y
              (received_line strftime (User_query_get d (Feedback.sender_id f)) f))
    as [Ht _].
  destruct (draw_line _ _ _ _ _ _) as [ops y'].
  rewrite drawn_texts_app, IH. simpl in Ht. rewrite Ht. reflexivity.
Qed.

Lemma received_loop_heights (d : DB) (y : num) (l : list Feedback.t) :
  below y 50 = false -> below (minus height 50) 50 = false ->
  Forall (fun h => below h 50 = false)
         (drawn_heights num (received_loop num height minus below strftime d y l)).
Proof.
  intros Hy Htop. revert y Hy.
  induction l as [|f l IH]; intros y Hy; simpl; [constructor|].
  destruct (draw_line_drawn y
              (received_line strftime (User_query_get d (Feedback.sender_id f)) f))
    as [_ [Hh Hnext]].
  destruct (draw_line _ _ _ _ _ _) as [ops y'].
  rewrite drawn_heights_app. simpl in Hh, Hnext. rewrite Hh. simpl.
  constructor; [exact Hy|]. apply IH. apply Hnext; assumption.
Qed.


Lemma given_loop_heights (d : DB) (l : list Feedback.t) :
  below (minus height 50) 50 = false ->
  forall y ops,
    below y 50 = false ->
    given_loop num height minus below strftime d y l = Some ops ->
    Forall (fun h => below h 50 = false) (drawn_heights num ops).
Proof.
  intros Htop. induction l as [|f l IH]; intros y ops Hy; simpl.
  - intros [= <-]. constructor.
  - destruct (User_query_get d (Feedback.recipient_id f)) as [u|];
      [|discriminate].
    destruct (draw_line_drawn y (given_line strftime u f)) as [_ [Hh Hnext]].
    destruct (draw_line _ _ _ _ _ _) as [ops0 y'].
    destruct (given_loop _ _ _ _ _ d y' l) as [ops'|] eqn:E; [|discriminate].
    intros [= <-]. rewrite drawn_heights_app. simpl in Hh, Hnext.
    rewrite Hh. simpl. constructor; [exact Hy|].
    apply (IH y' ops'); [apply Hnext; assumption | exact E].
Qed.


(** X22. The PDF of the feedback a logged-in user received is produced
    from any store: its texts are the title and one line per row the user
    received, newest first, hidden rows included, and a row whose sender
    is not found reads Unknown instead of failing. *)
Theorem download_received_pdf_lines (w : World) (user : User.t) :
  current_user w = Some user ->
  exists ops,
    download_received_pdf num height minus below strftime w
    = PdfFile "received_feedbacks.pdf" ops
    /\ drawn_texts num ops
       = ("Feedbacks Received by " ++ User.name user)
         :: map (fun f => received_line strftime
                            (User_query_get (db w) (Feedback.sender_id f)) f)
                (order_by_created_at_desc
                   (filter (fun f => Feedback.recipient_id f =? User.id user)
                           (feedbacks (db w)))).
Proof.
  intros Hu. unfold download_received_pdf. rewrite Hu. cbv zeta.
  eexists. split; [reflexivity|].
  simpl. rewrite drawn_texts_app, received_loop_texts. simpl.
  rewrite app_nil_r. reflexivity.
Qed.

(** X23. Nothing is drawn below the bottom margin: if the top of a page
    and the first line under the title are not below 50, then in both PDFs
    every text, however many rows there are, is drawn at a height that is
    not below 50. *)
Theorem pdf_lines_above_margin
    (w : World) (name : string) (ops : list (CanvasOp num)) :
  below (minus height 50) 50 = false ->
  below (minus (minus height 50) 40) 50 = false ->
  download_given_pdf num height minus below strftime w = PdfFile name ops
  \/ download_received_pdf num height minus below strftime w = PdfFile name ops ->
  Forall (fun h => below h 50 = false) (drawn_heights num ops).
Proof.
  intros Htop Hfirst [H | H].
  - unfold download_given_pdf in H.
    destruct (current_user w) as [user|]; [|discriminate]. cbv zeta in H.
    destruct (given_loop _ _ _ _ _ _ _ _) as [ops'|] eqn:E; [|discriminate].
    injection H as _ <-. simpl. constructor; [exact Htop|].
    rewrite drawn_heights_app. simpl. rewrite app_nil_r.
    apply (given_loop_heights (db w) _ Htop _ _ Hfirst E).
  - unfold download_received_pdf in H.
    destruct (current_user w) as [user|]; [|discriminate]. cbv zeta in H.
    injection H as _ <-. simpl. constructor; [exact Htop|].
    rewrite drawn_heights_app. simpl. rewrite app_nil_r.
    apply received_loop_heights; assumption.
Qed.

End PdfFacts.


Lemma download_received_pdf_lines_witness :
  exists ops,
    download_received_pdf Z 842 Z.sub Z.ltb MoreExamples.stamp MoreExamples.busy
    = PdfFile "received_feedbacks.pdf" ops
    /\ drawn_texts Z ops
       = ["Feedbacks Received by Alice";
          "From Alice (2026-01-01 00:00): note";
          "From Bob (2026-01-01 00:00): to alice"].
Proof.
  exact (download_received_pdf_lines Z 842 Z.sub Z.ltb MoreExamples.stamp
           MoreExamples.busy Examples.alice eq_refl).
Defined.

Lemma pdf_lines_above_margin_witness :
  Forall (fun h => (h <? 50) = false)
         (drawn_heights Z MoreExamples.busy_received_ops).
Proof.
  exact (pdf_lines_above_margin Z 160 Z.sub Z.ltb MoreExamples.stamp
           MoreExamples.busy "received_feedbacks.pdf"
           MoreExamples.busy_received_ops
           eq_refl eq_refl (or_intror eq_refl)).
Defined.

(** ** Beyond the claims: what never happens to a feedback row *)

(** X24. A user rewrites only their own feedback: in a store whose feedback
    ids are distinct, a request to [/give-feedback], whatever it holds,
    leaves every row in place whose sender is not the logged-in user (and
    every row, if nobody is logged in). *)
Theorem give_feedback_only_own_rows
    (w : World) (rq : Request) (f : Feedback.t) :
  feedback_ids_ok (db w) = true ->
  In f (feedbacks (db w)) ->
  (forall user, current_user w = Some user ->
                Feedback.sender_id f <> User.id user) ->
  In f (feedbacks (db (fst (give_feedback w rq)))).
Proof.
  intros Hok Hin Hother. unfold give_feedback.
  destruct (current_user w) as [user|]; [|exact Hin].
  specialize (Hother user eq_refl).
  destruct (method rq); [exact Hin|].
  destruct (Py.int _) as [r|e]; [|exact Hin].
  destruct (negb _); [exact Hin|].
  destruct (Feedback_query_by_pair (db w) (User.id user) r)
    as [existing|] eqn:E.
  - destruct (update_feedback_cases (db w) existing
                (Py.strip (form_get_default (form rq) "content" ""))
                (Py.truthy_opt (form_get (form rq) "visible")))
      as [[_ [_ ->]] | [[_ ->] | [_ ->]]]; simpl; try exact Hin.
    apply in_move_rewritten. left. split; [exact Hin|].
    destruct (Feedback.id f =? Feedback.id existing) eqn:Ef; [|reflexivity].
    exfalso. apply Z.eqb_eq in Ef.
    unfold feedback_ids_ok in Hok. apply andb_true_iff in Hok.
    destruct Hok as [Hdist _].
    apply find_some in E. destruct E as [Hex Hp].
    apply same_pair_true in Hp. destruct Hp as [Hs _].
    rewrite (distinct_same_key Z.eqb Feedback.id Z.eqb_eq
               (feedbacks (db w)) f existing Hdist Hin Hex Ef) in Hother.
    contradiction.
  - destruct (insert_feedback_shape (db w) (now rq) (User.id user) r
                (Py.strip (form_get_default (form rq) "content" ""))
                (Py.truthy_opt (form_get (form rq) "visible")))
      as [_ [[Hfs _] | [_ [_ [Hfs _]]]]].
    + destruct (insert_feedback _ _ _ _ _ _) as [d' [e|]];
        simpl in *; rewrite Hfs; exact Hin.
    + destruct (insert_feedback _ _ _ _ _ _) as [d' [e|]];
        simpl in *; rewrite Hfs; apply in_or_app; left; exact Hin.
Qed.

Lemma give_feedback_only_own_rows_witness :
  In (Feedback.mk 2 2 1 "to alice" false 20)
     (feedbacks (db (fst (give_feedback MoreExamples.busy
                            (Examples.submit "1" "mine now" None 50))))).
Proof.
  apply (give_feedback_only_own_rows MoreExamples.busy
           (Examples.submit "1" "mine now" None 50)
           (Feedback.mk 2 2 1 "to alice" false 20)).
  - reflexivity.
  - right. left. reflexivity.
  - intros user Hu. injection Hu as <-. discriminate.
Defined.

(** X25. Feedback is never deleted and never re-addressed or re-dated: a
    row of the store is still there after any run of requests, under the
    same id, with the sender, the recipient and the creation time it
    had. *)
Theorem run_keeps_rows
    (generate_password_hash : string -> string -> string)
    (check_password_hash : string -> string -> bool)
    (w : World) (rs : list (Route * Request)) (f : Feedback.t) :
  In f (feedbacks (db w)) ->
  exists f',
    In f' (feedbacks (db (run generate_password_hash check_password_hash w rs)))
    /\ Feedback.id f' = Feedback.id f
    /\ Feedback.sender_id f' = Feedback.sender_id f
    /\ Feedback.recipient_id f' = Feedback.recipient_id f
    /\ Feedback.created_at f' = Feedback.created_at f.
Proof.
  intros Hin.
  apply (run_keeps generate_password_hash check_password_hash
           (fun d => exists f',
              In f' (feedbacks d)
              /\ Feedback.id f' = Feedback.id f
              /\ Feedback.sender_id f' = Feedback.sender_id f
              /\ Feedback.recipient_id f' = Feedback.recipient_id f
              /\ Feedback.created_at f' = Feedback.created_at f)).
  - intros d u salt raw H _. exact H.
  - intros d ex c v [f' [Hf' Hsame]] _.
    destruct (update_feedback_shape d ex c v) as [_ [_ [-> | ->]]].
    + exists f'. auto.
    + exists (if Feedback.id f' =? Feedback.id ex
              then Feedback.with_content_visible f' c v else f').
      split.
      * apply in_move_rewritten.
        destruct (Feedback.id f' =? Feedback.id ex) eqn:Ef.
        -- right. exists f'. auto.
        -- left. auto.
      * destruct (Feedback.id f' =? Feedback.id ex); exact Hsame.
  - intros d t s r c v [f' [Hf' Hsame]].
    exists f'. split; [|exact Hsame].
    destruct (insert_feedback_shape d t s r c v)
      as [_ [[-> _] | [_ [_ [-> _]]]]].
    + exact Hf'.
    + apply in_or_app. left. exact Hf'.
  - exists f. auto.
Qed.

Lemma run_keeps_rows_witness :
  exists f',
    In f' (feedbacks (db (run PlainHash.generate PlainHash.check
             Examples.alice_sent
             [(RGiveFeedback, Examples.submit "2" "y" None 20);
              (RLogout, Examples.post [] 21)])))
    /\ Feedback.id f' = 1
    /\ Feedback.sender_id f' = 1
    /\ Feedback.recipient_id f' = 2
    /\ Feedback.created_at f' = 10.
Proof.
  exact (run_keeps_rows PlainHash.generate PlainHash.check Examples.alice_sent
           [(RGiveFeedback, Examples.submit "2" "y" None 20);
            (RLogout, Examples.post [] 21)]
           (Feedback.mk 1 1 2 "x" true 10) (or_introl eq_refl)).
Defined.

(** X26. The secret key is never empty: an empty [SECRET_KEY] variable
    counts as a missing one and gives the built-in key; a variable that is
    not empty is the key. *)
Theorem secret_key_never_empty (env : option string) :
  Config.secret_key env <> ""
  /\ (forall s, env = Some s -> s <> "" -> Config.secret_key env = s)
  /\ (env = None \/ env = Some "" ->
      Config.secret_key env = "replace-with-a-better-secret").
Proof.
  unfold Config.secret_key. destruct env as [s|].
  - destruct (Py.truthy s) eqn:Et.
    + apply truthy_true_iff in Et. repeat split.
      * exact Et.
      * intros s' [= <-] _. reflexivity.
      * intros [H | [= H]]; [discriminate | contradiction].
    + apply truthy_false_iff in Et. subst s. repeat split.
      * discriminate.
      * intros s' [= <-] H. contradiction.
  - repeat split; [discriminate|]. intros s H. discriminate.
Qed.

Lemma secret_key_never_empty_witness :
  Config.secret_key (Some "") = "replace-with-a-better-secret".
Proof.
  exact (proj2 (proj2 (secret_key_never_empty (Some "")))
               (or_intror eq_refl)).
Defined.
